(** * Session-scoped search/summary orchestration of the ArXiv similarity
      search backend (src/main.py)

    The development embeds the request handlers [search_papers],
    [generate_summary] and [get_session], the pipeline registry
    [get_orchestrator] and the two module-level stores [orchestrators] and
    [sessions] of [main.py], and proves the properties the specification
    states about them.

    Python values are modelled the way the interpreter has them: immutable
    values ([None], [bool], [int], [float], [str]) are carried directly,
    mutable containers ([list], [dict]) live in a heap and are denoted by
    references, so that two names of one object see each other's writes. *)

From Stdlib Require Import ZArith NArith Ascii String.
From stdpp Require Import base option list gmap fin_maps.

Local Open Scope Z_scope.

(** ** Python strings

    A [str] is a sequence of Unicode code points: [len] counts code points
    and slicing cuts between them. *)

Abbreviation pystr := (list N) (only parsing).
Abbreviation loc := positive (only parsing).

(** String literals of the source, code point by code point. *)
Definition lit (s : string) : pystr :=
  (λ a, N_of_ascii a) <$> list_ascii_of_string s.

(** ** Values, objects and the heap *)

Inductive val :=
  | VNone
  | VBool (b : bool)
  | VInt (z : Z)
  | VFloat (bits : N)          (* IEEE-754 binary64 bit pattern *)
  | VStr (s : pystr)
  | VRef (l : loc).            (* a list or dict object, by identity *)

Inductive obj :=
  | OList (items : list val)
  | ODict (entries : gmap pystr val).

(** What an expression evaluates to: a value, or a container the expression
    has just built ([[]], [{}], a slice of a list) and nobody else holds. *)
Inductive rvalue :=
  | Val (v : val)
  | Fresh (o : obj).

#[global] Instance val_eq_dec : EqDecision val.
Proof. solve_decision. Defined.

#[global] Instance obj_eq_dec : EqDecision obj.
Proof. solve_decision. Defined.

(** ** Exceptions *)

Inductive exn :=
  | KeyError (key : val)
  | IndexError
  | TypeError
  | AttributeError
  | SystemError                (* a reference to no object; CPython cannot produce one *)
  | Failure (msg : pystr).     (* any exception raised inside a collaborator *)

(** [detail] of an [HTTPException]: a literal message, or [str(e)]. *)
Inductive detail :=
  | Msg (s : pystr)
  | StrOf (e : exn).

Inductive raised :=
  | HTTPException (status_code : Z) (d : detail)
  | Exn (e : exn).

(** ** Pure evaluation against a heap: the error monad [res] *)

Inductive res (A : Type) :=
  | Return (a : A)
  | Throw (e : exn).
Arguments Return {A} a.
Arguments Throw {A} e.

#[global] Instance res_ret : MRet res := λ A a, Return a.
#[global] Instance res_bind : MBind res := λ A B f m,
  match m with Return a => f a | Throw e => Throw e end.

(** The run-time type of a value, with the contents of the object it
    denotes. *)
Inductive shape :=
  | SNone
  | SBool (b : bool)
  | SInt (z : Z)
  | SFloat (bits : N)
  | SStr (s : pystr)
  | SList (items : list val)
  | SDict (entries : gmap pystr val).

Definition shape_of_obj (o : obj) : shape :=
  match o with
  | OList xs => SList xs
  | ODict d => SDict d
  end.

Definition shape_of (h : gmap loc obj) (r : rvalue) : res shape :=
  match r with
  | Val VNone => Return SNone
  | Val (VBool b) => Return (SBool b)
  | Val (VInt z) => Return (SInt z)
  | Val (VFloat bits) => Return (SFloat bits)
  | Val (VStr s) => Return (SStr s)
  | Val (VRef l) =>
      match h !! l with
      | Some o => Return (shape_of_obj o)
      | None => Throw SystemError
      end
  | Fresh o => Return (shape_of_obj o)
  end.

(** [bool(x)], as used by [not x]. *)
Definition truthy_shape (s : shape) : bool :=
  match s with
  | SNone => false
  | SBool b => b
  | SInt z => negb (z =? 0)
  | SFloat bits => negb (N.land bits (2 ^ 63 - 1) =? 0)%N
  | SStr s => negb (bool_decide (s = []))
  | SList xs => negb (bool_decide (xs = []))
  | SDict d => negb (bool_decide (d = ∅))
  end.

Definition py_bool (h : gmap loc obj) (r : rvalue) : res bool :=
  s ← shape_of h r; mret (truthy_shape s).

(** [x.get(k, dflt)]: only a dict has the method. *)
Definition py_get (h : gmap loc obj) (r : rvalue) (k : pystr) (dflt : rvalue)
  : res rvalue :=
  s ← shape_of h r;
  match s with
  | SDict d => mret (from_option Val dflt (d !! k))
  | _ => Throw AttributeError
  end.

(** [len(x)]. *)
Definition py_len (h : gmap loc obj) (r : rvalue) : res Z :=
  s ← shape_of h r;
  match s with
  | SStr s => mret (Z.of_nat (length s))
  | SList xs => mret (Z.of_nat (length xs))
  | SDict d => mret (Z.of_nat (size d))
  | _ => Throw TypeError
  end.

(** Sequence indexing with Python's negative indices. *)
Definition seq_index {A} (xs : list A) (i : Z) : res A :=
  let n := Z.of_nat (length xs) in
  let j := if i <? 0 then i + n else i in
  if (j <? 0) || (n <=? j) then Throw IndexError
  else match xs !! Z.to_nat j with
       | Some x => Return x
       | None => Throw IndexError
       end.

(** [x[i]] for an integer [i].  The dicts of this model have string keys, so
    an integer is never among them. *)
Definition py_getitem_int (h : gmap loc obj) (r : rvalue) (i : Z) : res val :=
  s ← shape_of h r;
  match s with
  | SList xs => seq_index xs i
  | SStr s => c ← seq_index s i; mret (VStr [c])
  | SDict _ => Throw (KeyError (VInt i))
  | _ => Throw TypeError
  end.

(** [x[k]] for a string [k]. *)
Definition py_getitem_str (h : gmap loc obj) (r : rvalue) (k : pystr) : res val :=
  s ← shape_of h r;
  match s with
  | SDict d =>
      match d !! k with
      | Some v => Return v
      | None => Throw (KeyError (VStr k))
      end
  | _ => Throw TypeError
  end.

(** [x[:n]].  Slicing a dict hashes the slice object, which fails. *)
Definition py_slice_to (h : gmap loc obj) (r : rvalue) (n : nat) : res rvalue :=
  s ← shape_of h r;
  match s with
  | SStr s => mret (Val (VStr (take n s)))
  | SList xs => mret (Fresh (OList (take n xs)))
  | _ => Throw TypeError
  end.

(** [x + t] for a string [t]: only [str + str] is defined. *)
Definition py_add_str (h : gmap loc obj) (r : rvalue) (t : pystr) : res val :=
  s ← shape_of h r;
  match s with
  | SStr s => mret (VStr (s ++ t))
  | _ => Throw TypeError
  end.

(** The items [for x in r] visits.  A dict yields its keys. *)
Definition py_iter (h : gmap loc obj) (r : rvalue) : res (list val) :=
  s ← shape_of h r;
  match s with
  | SList xs => mret xs
  | SStr s => mret ((λ c, VStr [c]) <$> s)
  | SDict d => mret ((λ kv, VStr kv.1) <$> map_to_list d)
  | _ => Throw TypeError
  end.

(** Substring test, for [k in s] on strings. *)
Fixpoint is_prefix (p s : pystr) : bool :=
  match p, s with
  | [], _ => true
  | _ :: _, [] => false
  | a :: p', b :: s' => (a =? b)%N && is_prefix p' s'
  end.

Fixpoint is_substring (p s : pystr) : bool :=
  is_prefix p s ||
  match s with
  | [] => false
  | _ :: s' => is_substring p s'
  end.

(** [k in x] for a string [k]. *)
Definition py_contains_str (h : gmap loc obj) (k : pystr) (r : rvalue) : res bool :=
  s ← shape_of h r;
  match s with
  | SDict d => mret (bool_decide (is_Some (d !! k)))
  | SList xs => mret (bool_decide (VStr k ∈ xs))
  | SStr s => mret (is_substring k s)
  | _ => Throw TypeError
  end.

(** [x[k] = v] for a string [k]: writes into the dict object [x] denotes. *)
Definition py_setitem_str (h : gmap loc obj) (x : val) (k : pystr) (v : val)
  : res (gmap loc obj) :=
  match x with
  | VRef l =>
      match h !! l with
      | Some (ODict d) => Return (<[l := ODict (<[k := v]> d)]> h)
      | Some (OList _) => Throw TypeError
      | None => Throw SystemError
      end
  | _ => Throw TypeError
  end.

(** ** Time

    [datetime.now()] is an input of a request; only its calendar fields are
    read. *)

Record datetime := Datetime {
  year : nat; month : nat; day : nat;
  hour : nat; minute : nat; second : nat;
}.

(** The [width] low decimal digits of [n], most significant first: the
    zero-padded decimal rendering of [n] whenever [n < 10 ^ width]. *)
Fixpoint zero_padded (width n : nat) : pystr :=
  match width with
  | O => []
  | S w => zero_padded w (n / 10)%nat ++ [(48 + N.of_nat (n mod 10)%nat)%N]
  end.

(** [dt.strftime('%Y%m%d_%H%M%S')]. *)
Definition strftime (dt : datetime) : pystr :=
  zero_padded 4 (year dt) ++ zero_padded 2 (month dt) ++ zero_padded 2 (day dt)
  ++ lit "_"
  ++ zero_padded 2 (hour dt) ++ zero_padded 2 (minute dt) ++ zero_padded 2 (second dt).

(** ** Collaborators

    The pipeline class [MockPipelineOrchestrator] is imported, not defined,
    by [main.py].  An instance is known by its identity and the mode it was
    constructed with; a method call is known by its outcome: a returned
    value together with the objects the call allocated, or an exception.
    A call never writes into an object that existed before it. *)

Record handle := Handle { handle_id : nat; handle_mode : pystr }.

#[global] Instance handle_eq_dec : EqDecision handle.
Proof. solve_decision. Defined.

Inductive outcome :=
  | Returns (v : val) (allocated : gmap loc obj)
  | Raises (e : exn).

Record world := World {
  now : datetime;
  run_pipeline : handle → pystr → outcome;
  pipeline_generate_summary : handle → val → outcome;
}.

(** Method calls made on pipeline instances, latest last. *)
Inductive invocation :=
  | RunPipeline (o : handle) (abstract : pystr)
  | GenerateSummary (o : handle) (paper : val).

(** ** Process state: the module-level globals and the heap *)

Record state := State {
  orchestrators : gmap pystr (option handle);
  sessions : gmap pystr val;
  heap : gmap loc obj;
  instances : list handle;       (* every pipeline instance constructed, in order *)
  invoked : list invocation;
}.

(** The state right after the module is loaded. *)
Definition initial_state : state :=
  State {[ lit "arxiv" := None; lit "local" := None ]} ∅ ∅ [] [].

(** ** The handler monad: state passing with exceptions

    A raised exception keeps the writes made before it. *)

Inductive result (A : Type) :=
  | Ok (a : A)
  | Raise (r : raised).
Arguments Ok {A} a.
Arguments Raise {A} r.

Definition M (A : Type) : Type := state → result A * state.

#[global] Instance M_ret : MRet M := λ A a st, (Ok a, st).
#[global] Instance M_bind : MBind M := λ A B f m st,
  match m st with
  | (Ok a, st') => f a st'
  | (Raise r, st') => (Raise r, st')
  end.

Definition raise {A} (r : raised) : M A := λ st, (Raise r, st).

(** Evaluate a pure expression against the current heap. *)
Definition eval {A} (e : gmap loc obj → res A) : M A := λ st,
  match e (heap st) with
  | Return a => (Ok a, st)
  | Throw x => (Raise (Exn x), st)
  end.

(** [try: body / except HTTPException: raise /
     except Exception as e: raise HTTPException(500, str(e))]. *)
Definition try_except {A} (body : M A) : M A := λ st,
  match body st with
  | (Raise (Exn e), st') => (Raise (HTTPException 500 (StrOf e)), st')
  | r => r
  end.

(** *** Accessors of the globals *)

Definition orchestrators_getitem (mode : pystr) : M (option handle) := λ st,
  match orchestrators st !! mode with
  | Some o => (Ok o, st)
  | None => (Raise (Exn (KeyError (VStr mode))), st)
  end.

Definition orchestrators_setitem (mode : pystr) (o : option handle) : M unit := λ st,
  (Ok (), State (<[mode := o]> (orchestrators st)) (sessions st) (heap st)
                (instances st) (invoked st)).

(** [MockPipelineOrchestrator(mode=mode)]: a new object. *)
Definition construct (mode : pystr) : M handle := λ st,
  let o := Handle (length (instances st)) mode in
  (Ok o, State (orchestrators st) (sessions st) (heap st)
               (instances st ++ [o]) (invoked st)).

Definition sessions_contains (session_id : pystr) : M bool := λ st,
  (Ok (bool_decide (is_Some (sessions st !! session_id))), st).

Definition sessions_getitem (session_id : pystr) : M val := λ st,
  match sessions st !! session_id with
  | Some r => (Ok r, st)
  | None => (Raise (Exn (KeyError (VStr session_id))), st)
  end.

Definition sessions_setitem (session_id : pystr) (results : val) : M unit := λ st,
  (Ok (), State (orchestrators st) (<[session_id := results]> (sessions st))
                (heap st) (instances st) (invoked st)).

Definition setitem (x : val) (k : pystr) (v : val) : M unit := λ st,
  match py_setitem_str (heap st) x k v with
  | Return h' => (Ok (), State (orchestrators st) (sessions st) h'
                               (instances st) (invoked st))
  | Throw e => (Raise (Exn e), st)
  end.

(** *** Method calls on a pipeline instance

    Calling a method on [None] is an [AttributeError].  The objects a call
    allocates join the heap; existing objects keep their place. *)

Definition call (inv : invocation) (out : outcome) : M val := λ st,
  let log := invoked st ++ [inv] in
  match out with
  | Returns v allocated =>
      (Ok v, State (orchestrators st) (sessions st) (heap st ∪ allocated)
                   (instances st) log)
  | Raises e =>
      (Raise (Exn e), State (orchestrators st) (sessions st) (heap st)
                            (instances st) log)
  end.

Definition call_run_pipeline (w : world) (orchestrator : option handle)
    (abstract : pystr) : M val :=
  match orchestrator with
  | Some o => call (RunPipeline o abstract) (run_pipeline w o abstract)
  | None => raise (Exn AttributeError)
  end.

Definition call_generate_summary (w : world) (orchestrator : option handle)
    (paper : val) : M val :=
  match orchestrator with
  | Some o => call (GenerateSummary o paper) (pipeline_generate_summary w o paper)
  | None => raise (Exn AttributeError)
  end.

(** ** Pipeline registry *)

(** [get_orchestrator(mode)]. *)
Definition get_orchestrator (mode : pystr) : M (option handle) :=
  current ← orchestrators_getitem mode;
  match current with
  | None => o ← construct mode; orchestrators_setitem mode (Some o)
  | Some _ => mret ()
  end;;
  orchestrators_getitem mode.

(** ** Requests and responses *)

Record SearchRequest := { search_mode : pystr; search_abstract : pystr }.

Record SummaryRequest := {
  summary_mode : pystr;
  paper_index : Z;
  session_id : pystr;
}.

(** One entry of [response['top_5_papers']]. *)
Record paper_entry := {
  entry_rank : rvalue;
  entry_title : rvalue;
  entry_authors : rvalue;
  entry_year : rvalue;
  entry_arxiv_id : rvalue;
  entry_url : rvalue;
  entry_similarity : rvalue;
  entry_rerank_score : rvalue;
  entry_abstract : val;
}.

Record search_response := {
  resp_session_id : pystr;
  resp_mode : pystr;
  resp_query_abstract : pystr;
  resp_timestamp : rvalue;
  resp_keywords : rvalue;
  resp_metrics : rvalue;
  resp_top_5_papers : list paper_entry;
  resp_comparative_analysis : option val;    (* the key is absent when [None] *)
}.

Record summary_response := {
  paper_rank : rvalue;
  paper_title : rvalue;
  paper_authors : rvalue;
  paper_year : rvalue;
  paper_arxiv_id : rvalue;
  research_objective : rvalue;
  methodology_summary : rvalue;
  key_findings : rvalue;
  innovation_and_contribution : rvalue;
  technical_details : rvalue;
  limitations_and_future_work : rvalue;
}.

(** The [HTTPException]s the handlers raise, under the names the
    specification gives them. *)
Definition abstract_too_short : raised :=
  HTTPException 400 (Msg (lit "Abstract too short. Please provide at least 50 characters.")).
Definition invalid_mode : raised :=
  HTTPException 400 (Msg (lit "Invalid mode. Must be 'arxiv' or 'local'.")).
Definition search_failed : raised :=
  HTTPException 500 (Msg (lit "Search failed. Please try again.")).
Definition session_not_found : raised :=
  HTTPException 404 (Msg (lit "Session not found. Please perform a search first.")).
Definition invalid_paper_index : raised :=
  HTTPException 400 (Msg (lit "Invalid paper index. Must be between 1 and 5.")).
Definition paper_not_found : raised :=
  HTTPException 404 (Msg (lit "Paper not found.")).
Definition summary_failed : raised :=
  HTTPException 500 (Msg (lit "Summary generation failed.")).

(** ** Search orchestration: [POST /api/search] *)

(** The dict appended to [response['top_5_papers']] for one [paper]. *)
Definition format_paper (h : gmap loc obj) (paper : val) : res paper_entry :=
  rank ← py_get h (Val paper) (lit "rank") (Val VNone);
  title ← py_get h (Val paper) (lit "title") (Val VNone);
  authors ← py_get h (Val paper) (lit "authors") (Fresh (OList []));
  year ← py_get h (Val paper) (lit "year") (Val VNone);
  arxiv_id ← py_get h (Val paper) (lit "arxiv_id") (Val VNone);
  url ← py_get h (Val paper) (lit "url") (Val (VStr []));
  similarity ← py_get h (Val paper) (lit "similarity") (Val VNone);
  rerank_score ← py_get h (Val paper) (lit "rerank_score") (Val VNone);
  source ← py_get h (Val paper) (lit "abstract") (Val (VStr []));
  head ← py_slice_to h source 300;
  abstract ← py_add_str h head (lit "...");
  mret {| entry_rank := rank; entry_title := title; entry_authors := authors;
          entry_year := year; entry_arxiv_id := arxiv_id; entry_url := url;
          entry_similarity := similarity; entry_rerank_score := rerank_score;
          entry_abstract := abstract |}.

(** The loop [for paper in results.get('top_5_papers', [])[:5]]. *)
Definition format_top_5 (h : gmap loc obj) (results : val) : res (list paper_entry) :=
  papers ← py_get h (Val results) (lit "top_5_papers") (Fresh (OList []));
  first ← py_slice_to h papers 5;
  items ← py_iter h first;
  mapM (format_paper h) items.

(** [if 'comparative_analysis' in results: response[...] = results[...]]. *)
Definition comparative_analysis (h : gmap loc obj) (results : val) : res (option val) :=
  present ← py_contains_str h (lit "comparative_analysis") (Val results);
  if present : bool
  then v ← py_getitem_str h (Val results) (lit "comparative_analysis"); mret (Some v)
  else mret None.

Definition search_papers (w : world) (request : SearchRequest) : M search_response :=
  try_except (
    if bool_decide (length (search_abstract request) < 50)%nat
    then raise abstract_too_short
    else if negb (bool_decide (search_mode request ∈ [lit "arxiv"; lit "local"]))
    then raise invalid_mode
    else
      orchestrator ← get_orchestrator (search_mode request);
      results ← call_run_pipeline w orchestrator (search_abstract request);
      nonempty ← eval (λ h, py_bool h (Val results));
      if negb nonempty
      then raise search_failed
      else
        let sid := search_mode request ++ lit "_" ++ strftime (now w) in
        sessions_setitem sid results;;
        timestamp ← eval (λ h, py_get h (Val results) (lit "query_timestamp") (Val VNone));
        keywords ← eval (λ h, py_get h (Val results) (lit "keywords") (Fresh (OList [])));
        metrics ← eval (λ h, py_get h (Val results) (lit "metrics") (Fresh (ODict ∅)));
        top ← eval (λ h, format_top_5 h results);
        analysis ← eval (λ h, comparative_analysis h results);
        mret {| resp_session_id := sid;
                resp_mode := search_mode request;
                resp_query_abstract := search_abstract request;
                resp_timestamp := timestamp;
                resp_keywords := keywords;
                resp_metrics := metrics;
                resp_top_5_papers := top;
                resp_comparative_analysis := analysis |}).

(** ** Summary orchestration: [POST /api/summary] *)

(** Validation of the request and lookup of the paper it addresses: the
    session's ResultSet and the paper at position [paper_index - 1]. *)
Definition locate_paper (request : SummaryRequest) : M (val * val) :=
  known ← sessions_contains (session_id request);
  if negb known
  then raise session_not_found
  else
    results ← sessions_getitem (session_id request);
    if (paper_index request <? 1) || (paper_index request >? 5)
    then raise invalid_paper_index
    else
      papers ← eval (λ h, py_get h (Val results) (lit "top_5_papers") (Fresh (OList [])));
      count ← eval (λ h, py_len h papers);
      if paper_index request >? count
      then raise paper_not_found
      else
        paper ← eval (λ h, py_getitem_int h papers (paper_index request - 1));
        mret (results, paper).

(** Summarizing the located [paper] and storing the summary in it. *)
Definition summarize_paper (w : world) (request : SummaryRequest)
    (results paper : val) : M summary_response :=
  orchestrator ← get_orchestrator (summary_mode request);
  summary ← call_generate_summary w orchestrator paper;
  nonempty ← eval (λ h, py_bool h (Val summary));
  if negb nonempty
  then raise summary_failed
  else
    setitem paper (lit "summary") summary;;
    sessions_setitem (session_id request) results;;
    rank ← eval (λ h, py_get h (Val paper) (lit "rank") (Val VNone));
    title ← eval (λ h, py_get h (Val paper) (lit "title") (Val VNone));
    authors ← eval (λ h, py_get h (Val paper) (lit "authors") (Fresh (OList [])));
    year ← eval (λ h, py_get h (Val paper) (lit "year") (Val VNone));
    arxiv_id ← eval (λ h, py_get h (Val paper) (lit "arxiv_id") (Val VNone));
    objective ← eval (λ h, py_get h (Val summary) (lit "research_objective") (Val (VStr [])));
    methodology ← eval (λ h, py_get h (Val summary) (lit "methodology_summary") (Val (VStr [])));
    findings ← eval (λ h, py_get h (Val summary) (lit "key_findings") (Fresh (OList [])));
    innovation ← eval (λ h, py_get h (Val summary) (lit "innovation_and_contribution") (Val (VStr [])));
    technical ← eval (λ h, py_get h (Val summary) (lit "technical_details") (Val (VStr [])));
    limitations ← eval (λ h, py_get h (Val summary) (lit "limitations_and_future_work") (Val (VStr [])));
    mret {| paper_rank := rank; paper_title := title; paper_authors := authors;
            paper_year := year; paper_arxiv_id := arxiv_id;
            research_objective := objective;
            methodology_summary := methodology;
            key_findings := findings;
            innovation_and_contribution := innovation;
            technical_details := technical;
            limitations_and_future_work := limitations |}.

Definition generate_summary (w : world) (request : SummaryRequest) : M summary_response :=
  try_except (
    located ← locate_paper request;
    summarize_paper w request located.1 located.2).

(** ** [GET /api/session/{session_id}] *)

Definition get_session (sid : pystr) : M val := λ st,
  match sessions st !! sid with
  | Some r => (Ok r, st)
  | None => (Raise (HTTPException 404 (Msg (lit "Session not found"))), st)
  end.

(** ** Measures read off a stored ResultSet *)

(** [len(results.get('top_5_papers', []))]: the paper count of a ResultSet. *)
Definition paper_count (h : gmap loc obj) (results : val) : res Z :=
  papers ← py_get h (Val results) (lit "top_5_papers") (Fresh (OList []));
  py_len h papers.

(** [results.get('top_5_papers', [])[paper_index - 1]]: the paper a summary
    request addresses. *)
Definition paper_at (h : gmap loc obj) (results : val) (index : Z) : res val :=
  papers ← py_get h (Val results) (lit "top_5_papers") (Fresh (OList []));
  py_getitem_int h papers (index - 1).

(** The papers the search loop visits. *)
Definition visited_papers (h : gmap loc obj) (results : val) : res (list val) :=
  papers ← py_get h (Val results) (lit "top_5_papers") (Fresh (OList []));
  first ← py_slice_to h papers 5;
  py_iter h first.

(** The abstract a search response embeds for a paper whose source
    abstract is [source] ([None] when the paper has no such key): the first
    300 code points followed by three dots.  A source abstract that is not
    a string has no embedding. *)
Definition truncated (source : option val) (field : val) : Prop :=
  match source with
  | Some (VStr a) => field = VStr (take 300 a ++ lit "...")
  | Some _ => False
  | None => field = VStr (lit "...")
  end.

Definition is_digit (c : N) : Prop := (48 ≤ c ≤ 57)%N.

(** The number a string of decimal digits denotes. *)
Definition decimal_value (s : pystr) : nat :=
  foldl (λ acc c, (10 * acc + N.to_nat (c - 48))%nat) 0%nat s.

(** [YYYYMMDD_HHMMSS]: eight digits, an underscore, six digits. *)
Definition timestamp_shaped (s : pystr) : Prop :=
  ∃ date time, s = date ++ lit "_" ++ time ∧
    length date = 8%nat ∧ length time = 6%nat ∧
    Forall is_digit date ∧ Forall is_digit time.

Definition is_ok {A} (r : result A) : bool :=
  match r with Ok _ => true | Raise _ => false end.

(** ** Request sequences *)

Inductive request :=
  | Search (w : world) (r : SearchRequest)
  | Summarize (w : world) (r : SummaryRequest)
  | GetSession (sid : pystr).

Definition step (st : state) (q : request) : state :=
  match q with
  | Search w r => (search_papers w r st).2
  | Summarize w r => (generate_summary w r st).2
  | GetSession sid => (get_session sid st).2
  end.

(** The state after serving [qs], one after the other, from [st]. *)
Definition run (qs : list request) (st : state) : state := foldl step st qs.

(** ** The registry invariant

    What holds of the registry and of the pipeline instances constructed so
    far, in every state the process can reach: the registry has exactly the
    two keys of its initial literal, it stores exactly the instances that
    were constructed, each under the mode it was constructed with, and no
    two instances were constructed with the same mode. *)
Definition registry_inv (st : state) : Prop :=
  (∀ m, is_Some (orchestrators st !! m) ↔ m ∈ [lit "arxiv"; lit "local"]) ∧
  (∀ m o, orchestrators st !! m = Some (Some o) → o ∈ instances st ∧ handle_mode o = m) ∧
  (∀ o, o ∈ instances st → orchestrators st !! handle_mode o = Some (Some o)) ∧
  NoDup (handle_mode <$> instances st).

(** How the registry may differ between an earlier and a later state: the
    invariant is kept, a stored instance stays stored, and the constructed
    instances only grow. *)
Definition registry_extends (st st' : state) : Prop :=
  (registry_inv st → registry_inv st') ∧
  (∀ m o, orchestrators st !! m = Some (Some o) →
          orchestrators st' !! m = Some (Some o)) ∧
  instances st `prefix_of` instances st'.

(** A computation whose final state is always related to its initial one. *)
Definition preserves {A} (R : relation state) (m : M A) : Prop :=
  ∀ st, R st (m st).2.

(** ** A concrete scenario

    A pipeline that answers every query with one ResultSet of two papers
    (the second without an abstract), and a summarizer that answers with a
    one-field summary.  The instances below are used to exercise the
    theorems on concrete inputs. *)

Definition demo_paper_1 : obj :=
  ODict {[ lit "rank" := VInt 1; lit "title" := VStr (lit "On heaps");
           lit "abstract" := VStr (lit "A short abstract") ]}.

Definition demo_paper_2 : obj :=
  ODict {[ lit "rank" := VInt 2; lit "title" := VStr (lit "On maps") ]}.

Definition demo_objects : gmap loc obj :=
  {[ 1%positive := ODict {[ lit "top_5_papers" := VRef 2;
                            lit "query_timestamp" := VStr (lit "t0") ]};
     2%positive := OList [VRef 3; VRef 4];
     3%positive := demo_paper_1;
     4%positive := demo_paper_2 ]}.

Definition demo_summary_objects : gmap loc obj :=
  {[ 9%positive := ODict {[ lit "research_objective" := VStr (lit "goal") ]} ]}.

Definition demo_now : datetime := Datetime 2026 1 2 3 4 5.

Definition demo_world : world :=
  World demo_now
        (λ _ _, Returns (VRef 1) demo_objects)
        (λ _ _, Returns (VRef 9) demo_summary_objects).

(** The collaborators signal failure by returning [None]. *)
Definition none_world : world :=
  World demo_now (λ _ _, Returns VNone ∅) (λ _ _, Returns VNone ∅).

(** The collaborators return a present but empty mapping. *)
Definition empty_world : world :=
  World demo_now
        (λ _ _, Returns (VRef 7) {[ 7%positive := ODict ∅ ]})
        (λ _ _, Returns (VRef 7) {[ 7%positive := ODict ∅ ]}).

(** A later search of the same second, with a different ResultSet. *)
Definition later_world : world :=
  World demo_now
        (λ _ _, Returns (VRef 5) {[ 5%positive := ODict {[ lit "keywords" := VNone ]} ]})
        (λ _ _, Returns VNone ∅).

Definition demo_abstract : pystr := replicate 120 97%N.

Definition demo_search : SearchRequest :=
  {| search_mode := lit "arxiv"; search_abstract := demo_abstract |}.

Definition demo_sid : pystr := lit "arxiv_20260102_030405".

Definition demo_summary (index : Z) : SummaryRequest :=
  {| summary_mode := lit "arxiv"; paper_index := index; session_id := demo_sid |}.

(** The state after one successful search. *)
Definition demo_state : state := run [Search demo_world demo_search] initial_state.

(** The response of that search. *)
Definition demo_response : search_response :=
  {| resp_session_id := demo_sid;
     resp_mode := lit "arxiv";
     resp_query_abstract := demo_abstract;
     resp_timestamp := Val (VStr (lit "t0"));
     resp_keywords := Fresh (OList []);
     resp_metrics := Fresh (ODict ∅);
     resp_top_5_papers :=
       [ {| entry_rank := Val (VInt 1); entry_title := Val (VStr (lit "On heaps"));
            entry_authors := Fresh (OList []); entry_year := Val VNone;
            entry_arxiv_id := Val VNone; entry_url := Val (VStr []);
            entry_similarity := Val VNone; entry_rerank_score := Val VNone;
            entry_abstract := VStr (lit "A short abstract...") |};
         {| entry_rank := Val (VInt 2); entry_title := Val (VStr (lit "On maps"));
            entry_authors := Fresh (OList []); entry_year := Val VNone;
            entry_arxiv_id := Val VNone; entry_url := Val (VStr []);
            entry_similarity := Val VNone; entry_rerank_score := Val VNone;
            entry_abstract := VStr (lit "...") |} ];
     resp_comparative_analysis := None |}.

(** The state after a search followed by a summary of its second paper,
    and the response of that summary request. *)
Definition demo_summarized : state :=
  run [Search demo_world demo_search; Summarize demo_world (demo_summary 2)]
      initial_state.

Definition demo_summary_response : summary_response :=
  {| paper_rank := Val (VInt 2);
     paper_title := Val (VStr (lit "On maps"));
     paper_authors := Fresh (OList []);
     paper_year := Val VNone;
     paper_arxiv_id := Val VNone;
     research_objective := Val (VStr (lit "goal"));
     methodology_summary := Val (VStr []);
     key_findings := Fresh (OList []);
     innovation_and_contribution := Val (VStr []);
     technical_details := Val (VStr []);
     limitations_and_future_work := Val (VStr []) |}.

(** ** Vocabulary of the further properties *)




(** A pipeline whose [run_pipeline] returns a ResultSet with a paper whose
    abstract is [None], and whose summarizer raises. *)
Definition broken_objects : gmap loc obj :=
  {[ 11%positive := ODict {[ lit "top_5_papers" := VRef 12 ]};
     12%positive := OList [VRef 13];
     13%positive := ODict {[ lit "title" := VStr (lit "Untitled");
                             lit "abstract" := VNone ]} ]}.

Definition broken_world : world :=
  World demo_now
        (λ _ _, Returns (VRef 11) broken_objects)
        (λ _ _, Raises (Failure (lit "model unavailable"))).


(** One entry of a search response copies eight fields of its source paper,
    with the defaults of the source where the paper lacks a key. *)
Definition entry_copies (h : gmap loc obj) (paper : val) (entry : paper_entry) : Prop :=
  ∃ p, shape_of h (Val paper) = Return (SDict p) ∧
    entry_rank entry = from_option Val (Val VNone) (p !! lit "rank") ∧
    entry_title entry = from_option Val (Val VNone) (p !! lit "title") ∧
    entry_authors entry = from_option Val (Fresh (OList [])) (p !! lit "authors") ∧
    entry_year entry = from_option Val (Val VNone) (p !! lit "year") ∧
    entry_arxiv_id entry = from_option Val (Val VNone) (p !! lit "arxiv_id") ∧
    entry_url entry = from_option Val (Val (VStr [])) (p !! lit "url") ∧
    entry_similarity entry = from_option Val (Val VNone) (p !! lit "similarity") ∧
    entry_rerank_score entry = from_option Val (Val VNone) (p !! lit "rerank_score").

(** The response of a summary request: five identity fields read from the
    paper and six fields read from the summary, with the defaults of the
    source where a key is missing. *)
Definition summary_view (h : gmap loc obj) (paper summary : val)
    (resp : summary_response) : Prop :=
  ∃ p s,
    shape_of h (Val paper) = Return (SDict p) ∧
    shape_of h (Val summary) = Return (SDict s) ∧
    paper_rank resp = from_option Val (Val VNone) (p !! lit "rank") ∧
    paper_title resp = from_option Val (Val VNone) (p !! lit "title") ∧
    paper_authors resp = from_option Val (Fresh (OList [])) (p !! lit "authors") ∧
    paper_year resp = from_option Val (Val VNone) (p !! lit "year") ∧
    paper_arxiv_id resp = from_option Val (Val VNone) (p !! lit "arxiv_id") ∧
    research_objective resp
      = from_option Val (Val (VStr [])) (s !! lit "research_objective") ∧
    methodology_summary resp
      = from_option Val (Val (VStr [])) (s !! lit "methodology_summary") ∧
    key_findings resp = from_option Val (Fresh (OList [])) (s !! lit "key_findings") ∧
    innovation_and_contribution resp
      = from_option Val (Val (VStr [])) (s !! lit "innovation_and_contribution") ∧
    technical_details resp
      = from_option Val (Val (VStr [])) (s !! lit "technical_details") ∧
    limitations_and_future_work resp
      = from_option Val (Val (VStr [])) (s !! lit "limitations_and_future_work").

(** The state after a search in arxiv mode followed by a summary request
    that names the local mode. *)
Definition cross_mode_summary : SummaryRequest :=
  {| summary_mode := lit "local"; paper_index := 1; session_id := demo_sid |}.

Definition cross_mode_response : summary_response :=
  {| paper_rank := Val (VInt 1);
     paper_title := Val (VStr (lit "On heaps"));
     paper_authors := Fresh (OList []);
     paper_year := Val VNone;
     paper_arxiv_id := Val VNone;
     research_objective := Val (VStr (lit "goal"));
     methodology_summary := Val (VStr []);
     key_findings := Fresh (OList []);
     innovation_and_contribution := Val (VStr []);
     technical_details := Val (VStr []);
     limitations_and_future_work := Val (VStr []) |}.

(** The calendar fields [datetime] guarantees fit their printed widths: a
    year below 10000, every other field below 100. *)
Definition fits_widths (dt : datetime) : Prop :=
  (year dt < 10 ^ 4 ∧ month dt < 10 ^ 2 ∧ day dt < 10 ^ 2 ∧
   hour dt < 10 ^ 2 ∧ minute dt < 10 ^ 2 ∧ second dt < 10 ^ 2)%nat.

(** The identifier a search issues for [mode] at time [dt]. *)
Definition issued_id (mode : pystr) (dt : datetime) : pystr :=
  mode ++ lit "_" ++ strftime dt.

(** The response of the later search of the same second. *)
Definition later_response : search_response :=
  {| resp_session_id := demo_sid;
     resp_mode := lit "arxiv";
     resp_query_abstract := demo_abstract;
     resp_timestamp := Val VNone;
     resp_keywords := Val VNone;
     resp_metrics := Fresh (ODict ∅);
     resp_top_5_papers := [];
     resp_comparative_analysis := None |}.

(** ** Relations between an earlier and a later state *)

(** A session identifier as [search_papers] builds them. *)
Definition session_id_shaped (sid : pystr) : Prop :=
  ∃ mode ts, sid = mode ++ lit "_" ++ ts ∧
    mode ∈ [lit "arxiv"; lit "local"] ∧ timestamp_shaped ts.

(** The session store only grows, and only by identifiers of that shape. *)
Definition sessions_grow (st st' : state) : Prop :=
  (∀ sid, is_Some (sessions st !! sid) → is_Some (sessions st' !! sid)) ∧
  (∀ sid, is_Some (sessions st' !! sid) →
          is_Some (sessions st !! sid) ∨ session_id_shaped sid).

(** An identifier that may be assigned to without breaking [sessions_grow]:
    one already in the store, or one of the right shape. *)
Definition admits (sid : pystr) (st : state) : Prop :=
  is_Some (sessions st !! sid) ∨ session_id_shaped sid.

(** A computation that relates its final state to its initial one whenever
    the initial state satisfies [I]. *)
Definition preserves_from {A} (I : state → Prop) (R : relation state) (m : M A) : Prop :=
  ∀ st, I st → R st (m st).2.

(** An object and what it may have become: a list is what it was; a dict
    has the same value, or the same absence, under every key but
    [summary]. *)
Definition unchanged_but_summary (o o' : obj) : Prop :=
  match o, o' with
  | OList xs, OList ys => ys = xs
  | ODict d, ODict d' => ∀ k, k ≠ lit "summary" → d' !! k = d !! k
  | _, _ => False
  end.

(** Every object of the earlier heap is still there, unchanged but for a
    summary. *)
Definition heap_evolves (st st' : state) : Prop :=
  ∀ l o, heap st !! l = Some o →
         ∃ o', heap st' !! l = Some o' ∧ unchanged_but_summary o o'.


(** ** Configuration: [load_config] and [GET /api/config]

    A parsed YAML document is a tree of plain values that nobody shares or
    writes to, so it is carried by value.  A mapping is known by its string
    keys; a key of another type is never equal to the strings looked up
    here.  The file system is read, not written: it is known by what
    [os.path.exists] and [os.listdir] answer. *)

#[local] Unset Elimination Schemes.
Inductive data :=
  | DNone
  | DBool (b : bool)
  | DInt (z : Z)
  | DFloat (bits : N)
  | DStr (s : pystr)
  | DList (items : list data)
  | DDict (entries : gmap pystr data).
#[local] Set Elimination Schemes.

(** [d.get(k, dflt)] on a parsed value. *)
Definition data_get (d : data) (k : pystr) (dflt : data) : res data :=
  match d with
  | DDict m => Return (default dflt (m !! k))
  | _ => Throw AttributeError
  end.

(** What the [os] functions accept as a path: a string, or an integer taken
    as a file descriptor. *)
Inductive pathlike :=
  | PathStr (s : pystr)
  | PathFd (fd : Z).

#[global] Instance pathlike_eq_dec : EqDecision pathlike.
Proof. solve_decision. Defined.

Definition as_path (d : data) : res pathlike :=
  match d with
  | DStr s => Return (PathStr s)
  | DInt z => Return (PathFd z)
  | DBool b => Return (PathFd (Z.b2z b))
  | _ => Throw TypeError
  end.

Record environment := Environment {
  path_exists : pathlike → bool;            (* os.path.exists *)
  listdir : pathlike → res (list pystr);    (* os.listdir *)
  safe_load : res data;                     (* yaml.safe_load(open('config.yaml')) *)
}.

(** The dict [load_config] returns when there is no [config.yaml]. *)
Definition default_settings : gmap pystr data :=
  {[ lit "arxiv" := DDict {[ lit "max_results" := DInt 20 ]};
     lit "reranking" := DDict {[ lit "top_k" := DInt 5 ]};
     lit "local_database" :=
       DDict {[ lit "folder_path" := DStr (lit "data/local_database") ]};
     lit "paths" := DDict {[ lit "sample_pdfs" := DStr (lit "data/sample_pdfs") ]} ]}.

Definition default_config : data := DDict default_settings.

Definition load_config (env : environment) : res data :=
  if negb (path_exists env (PathStr (lit "config.yaml")))
  then Return default_config
  else safe_load env.

(** [[f for f in os.listdir(p) if f.endswith('.pdf')]] when [p] exists, the
    empty list otherwise. *)
Definition list_pdfs (env : environment) (p : data) : res (list pystr) :=
  path ← as_path p;
  if path_exists env path
  then names ← listdir env path;
       mret (filter (λ f, lit ".pdf" `suffix_of` f) names)
  else mret [].

Record config_response := {
  arxiv_max_results : data;
  top_k_papers : data;
  local_database_path : data;
  local_database_pdf_count : nat;
  local_database_ready : bool;
  modes_arxiv_name : pystr;
  modes_arxiv_description : pystr;
  modes_arxiv_status : pystr;
  modes_local_name : pystr;
  modes_local_description : pystr;
  modes_local_status : pystr;
}.

Definition get_config (env : environment) : res config_response :=
  config ← load_config env;
  local_database ← data_get config (lit "local_database") (DDict ∅);
  local_db_path ← data_get local_database (lit "folder_path")
                    (DStr (lit "data/local_database"));
  paths ← data_get config (lit "paths") (DDict ∅);
  sample_pdfs_path ← data_get paths (lit "sample_pdfs") (DStr (lit "data/sample_pdfs"));
  local_pdfs ← list_pdfs env local_db_path;
  sample_pdfs ← list_pdfs env sample_pdfs_path;
  let pdf_count := (length local_pdfs `max` length sample_pdfs)%nat in
  arxiv ← data_get config (lit "arxiv") (DDict ∅);
  max_results ← data_get arxiv (lit "max_results") (DInt 20);
  reranking ← data_get config (lit "reranking") (DDict ∅);
  top_k ← data_get reranking (lit "top_k") (DInt 5);
  mret {| arxiv_max_results := max_results;
          top_k_papers := top_k;
          local_database_path := local_db_path;
          local_database_pdf_count := pdf_count;
          local_database_ready := bool_decide (0 < pdf_count)%nat;
          modes_arxiv_name := lit "ArXiv Mode";
          modes_arxiv_description := lit "Search from ArXiv (online)";
          modes_arxiv_status := lit "online";
          modes_local_name := lit "Local Database";
          modes_local_description := lit "Search from local papers (offline)";
          modes_local_status :=
            if bool_decide (0 < pdf_count)%nat then lit "ready" else lit "no_pdfs" |}.

(** The value [get_config] reads for [key] of [section]: the default when
    the section or the key is missing. *)
Definition setting (m : gmap pystr data) (section key : pystr) (dflt : data) : data :=
  match m !! section with
  | Some (DDict s) => default dflt (s !! key)
  | _ => dflt
  end.

(** A section of the configuration that [get_config] can read: missing, or
    a mapping. *)
Definition readable_section (m : gmap pystr data) (section : pystr) : Prop :=
  match m !! section with
  | Some (DDict _) | None => True
  | Some _ => False
  end.

(** A working directory without [config.yaml], whose local database folder
    holds one PDF among three files and whose sample folder does not
    exist. *)
Definition demo_environment : environment :=
  Environment
    (λ p, bool_decide (p = PathStr (lit "data/local_database")))
    (λ p, Return [lit "paper.pdf"; lit "notes.txt"; lit "SCAN.PDF"])
    (Throw (Failure (lit "No such file or directory: 'config.yaml'"))).

(** What [GET /api/config] answers there. *)
Definition demo_config_response : config_response :=
  {| arxiv_max_results := DInt 20;
            top_k_papers := DInt 5;
            local_database_path := DStr (lit "data/local_database");
            local_database_pdf_count := 1;
            local_database_ready := true;
            modes_arxiv_name := lit "ArXiv Mode";
            modes_arxiv_description := lit "Search from ArXiv (online)";
            modes_arxiv_status := lit "online";
            modes_local_name := lit "Local Database";
            modes_local_description := lit "Search from local papers (offline)";
            modes_local_status := lit "ready" |}.

(** A working directory whose [config.yaml] is empty: [yaml.safe_load]
    returns [None]. *)
Definition empty_file_environment : environment :=
  Environment (λ p, bool_decide (p = PathStr (lit "config.yaml")))
              (λ p, Return [])
              (Return DNone).

(** ** Startup: [create_directories]

    The part of the file system below the working directory, as the calls
    of [create_directories] see it: a finite map from relative paths to the
    kind of entry found there.  A path is the list of its components, the
    last component first, so that the tail of a path is its parent and the
    empty path is the working directory, which is always a directory. *)

Inductive node := Directory | File.

#[global] Instance node_eq_dec : EqDecision node.
Proof. solve_decision. Defined.

Inductive oserror := FileExistsError | FileNotFoundError | NotADirectoryError.

(** The components of a path string, split at "/". *)
Fixpoint components (s : pystr) : list pystr :=
  match s with
  | [] => [[]]
  | c :: s' =>
      if (c =? 47)%N then [] :: components s'
      else match components s' with
           | [] => [[c]]
           | x :: xs => (c :: x) :: xs
           end
  end.

Definition path_of (s : pystr) : list pystr := rev (components s).

Definition lookup_node (f : gmap (list pystr) node) (p : list pystr) : option node :=
  match p with
  | [] => Some Directory
  | _ => f !! p
  end.

(** [os.mkdir(p)]. *)
Definition mkdir (p : list pystr) (f : gmap (list pystr) node)
  : option oserror * gmap (list pystr) node :=
  match lookup_node f p with
  | Some _ => (Some FileExistsError, f)
  | None =>
      match lookup_node f (tail p) with
      | Some Directory => (None, <[p := Directory]> f)
      | Some File => (Some NotADirectoryError, f)
      | None => (Some FileNotFoundError, f)
      end
  end.

(** [os.makedirs(p, exist_ok=True)]: make the parent first when it does not
    exist, then the directory itself; a failure to make it is forgiven when
    it is there as a directory. *)
Fixpoint makedirs (p : list pystr) (f : gmap (list pystr) node)
  : option oserror * gmap (list pystr) node :=
  match p with
  | [] => (None, f)
  | _ :: head =>
      let '(raised, f1) :=
        if bool_decide (is_Some (lookup_node f head)) then (None, f)
        else match makedirs head f with
             | (Some FileExistsError, f') => (None, f')
             | r => r
             end in
      match raised with
      | Some e => (Some e, f1)
      | None =>
          match mkdir p f1 with
          | (Some e, f2) =>
              if bool_decide (lookup_node f2 p = Some Directory) then (None, f2)
              else (Some e, f2)
          | made => made
          end
      end
  end.

(** [Path(p).touch()]. *)
Definition touch (p : list pystr) (f : gmap (list pystr) node)
  : option oserror * gmap (list pystr) node :=
  match lookup_node f p with
  | Some _ => (None, f)
  | None =>
      match lookup_node f (tail p) with
      | Some Directory => (None, <[p := File]> f)
      | Some File => (Some NotADirectoryError, f)
      | None => (Some FileNotFoundError, f)
      end
  end.

Definition directories : list pystr :=
  [ lit "data/temp_pdfs"; lit "data/sample_pdfs"; lit "data/local_database";
    lit "data/faiss_indices"; lit "outputs"; lit "logs";
    lit "frontend/static/css"; lit "frontend/static/js"; lit "frontend/static" ].

(** The body of the loop, for one [directory]. *)
Definition create_directory (directory : pystr) (f : gmap (list pystr) node)
  : option oserror * gmap (list pystr) node :=
  match makedirs (path_of directory) f with
  | (Some e, f1) => (Some e, f1)
  | (None, f1) =>
      let gitkeep_path := lit ".gitkeep" :: path_of directory in
      if bool_decide (is_Some (lookup_node f1 gitkeep_path)) then (None, f1)
      else touch gitkeep_path f1
  end.

Fixpoint create_each (dirs : list pystr) (f : gmap (list pystr) node)
  : option oserror * gmap (list pystr) node :=
  match dirs with
  | [] => (None, f)
  | directory :: rest =>
      match create_directory directory f with
      | (Some e, f1) => (Some e, f1)
      | (None, f1) => create_each rest f1
      end
  end.

Definition create_directories (f : gmap (list pystr) node)
  : option oserror * gmap (list pystr) node :=
  create_each directories f.

(** Every entry lies in a directory. *)
Definition well_formed (f : gmap (list pystr) node) : Prop :=
  ∀ p n, f !! p = Some n → p ≠ [] ∧ lookup_node f (tail p) = Some Directory.

(** What a fresh checkout holds after startup. *)
Definition fresh_tree : gmap (list pystr) node := (create_directories ∅).2.

(** A working directory in which [logs] is a regular file. *)
Definition logs_is_a_file : gmap (list pystr) node := {[ [lit "logs"] := File ]}.

(** * Properties *)

(** ** The scenario, run

    The handlers evaluated on the concrete scenario: a search that succeeds,
    a summary of its second paper, and the rejections of the
    specification's scenarios B and D. *)

Example strftime_demo : strftime demo_now = lit "20260102_030405".
Proof. reflexivity. Qed.

Example demo_search_runs :
  search_papers demo_world demo_search initial_state = (Ok demo_response, demo_state).
Proof. vm_compute. reflexivity. Qed.

Example demo_summary_runs :
  generate_summary demo_world (demo_summary 2) demo_state
  = (Ok demo_summary_response, demo_summarized).
Proof. vm_compute. reflexivity. Qed.

Example demo_summary_is_stored :
  paper_at (heap demo_summarized) (VRef 1) 2 = Return (VRef 4) ∧
  py_get (heap demo_summarized) (Val (VRef 4)) (lit "summary") (Val VNone)
  = Return (Val (VRef 9)).
Proof. vm_compute. split; reflexivity. Qed.

Example short_abstract_rejected :
  search_papers demo_world
    {| search_mode := lit "local"; search_abstract := lit "short" |} initial_state
  = (Raise abstract_too_short, initial_state).
Proof. vm_compute. reflexivity. Qed.

Example unknown_session_rejected :
  generate_summary demo_world
    {| summary_mode := lit "arxiv"; paper_index := 1;
       session_id := lit "does-not-exist" |} demo_state
  = (Raise session_not_found, demo_state).
Proof. vm_compute. reflexivity. Qed.

Example truthiness :
  truthy_shape <$> [SNone; SInt 0; SFloat 0; SStr []; SList []; SDict ∅;
                    SInt 7; SStr (lit "x"); SList [VNone]]
  = [false; false; false; false; false; false; true; true; true].
Proof. vm_compute. reflexivity. Qed.

(** ** Running the handler monad *)

Lemma bind_run {A B} (m : M A) (f : A → M B) st :
  (m ≫= f) st =
  match m st with
  | (Ok a, st') => f a st'
  | (Raise r, st') => (Raise r, st')
  end.
Proof. reflexivity. Qed.

Lemma bind_ok {A B} (m : M A) (f : A → M B) st b st' :
  (m ≫= f) st = (Ok b, st') →
  ∃ a st1, m st = (Ok a, st1) ∧ f a st1 = (Ok b, st').
Proof.
  rewrite bind_run. destruct (m st) as [[a|r] st1]; [eauto | discriminate].
Qed.

Lemma bind_step {A B} (m : M A) (f : A → M B) st a st1 :
  m st = (Ok a, st1) → (m ≫= f) st = f a st1.
Proof. intros H. by rewrite bind_run, H. Qed.

Lemma bind_raise {A B} (m : M A) (f : A → M B) st r st1 :
  m st = (Raise r, st1) → (m ≫= f) st = (Raise r, st1).
Proof. intros H. by rewrite bind_run, H. Qed.

Lemma sessions_contains_run sid st :
  sessions_contains sid st = (Ok (bool_decide (is_Some (sessions st !! sid))), st).
Proof. reflexivity. Qed.

Lemma sessions_getitem_run sid st results :
  sessions st !! sid = Some results → sessions_getitem sid st = (Ok results, st).
Proof. unfold sessions_getitem. by intros ->. Qed.

Lemma try_except_ok {A} (body : M A) st a st' :
  try_except body st = (Ok a, st') → body st = (Ok a, st').
Proof.
  unfold try_except. destruct (body st) as [[x|[c d|e]] st1]; congruence.
Qed.

Lemma try_except_http {A} (body : M A) st c d st' :
  body st = (Raise (HTTPException c d), st') →
  try_except body st = (Raise (HTTPException c d), st').
Proof. unfold try_except. intros ->. reflexivity. Qed.

Lemma try_except_exn {A} (body : M A) st e st' :
  body st = (Raise (Exn e), st') →
  try_except body st = (Raise (HTTPException 500 (StrOf e)), st').
Proof. unfold try_except. intros ->. reflexivity. Qed.

(** No bare exception leaves a handler wrapped in [try_except]. *)
Lemma try_except_boundary {A} (body : M A) st e st' :
  try_except body st ≠ (Raise (Exn e), st').
Proof.
  unfold try_except. destruct (body st) as [[x|[c d|e0]] st1]; discriminate.
Qed.

Lemma eval_ok {A} (e : gmap loc obj → res A) st a st' :
  eval e st = (Ok a, st') → e (heap st) = Return a ∧ st' = st.
Proof.
  unfold eval. destruct (e (heap st)); intros [= <- <-] || discriminate. done.
Qed.

Lemma eval_return {A} (e : gmap loc obj → res A) st a :
  e (heap st) = Return a → eval e st = (Ok a, st).
Proof. unfold eval. intros ->. reflexivity. Qed.

Lemma res_bind_return {A B} (m : res A) (f : A → res B) b :
  m ≫= f = Return b → ∃ a, m = Return a ∧ f a = Return b.
Proof. destruct m; [eauto | discriminate]. Qed.

Lemma mapM_res_Forall2 {A B} (f : A → res B) xs ys :
  mapM f xs = Return ys → Forall2 (λ x y, f x = Return y) xs ys.
Proof.
  revert ys. induction xs as [|x xs IH]; intros ys; simpl.
  - intros [= <-]. constructor.
  - intros H. apply res_bind_return in H as (y & Hy & H).
    apply res_bind_return in H as (k & Hk & H).
    injection H as <-. constructor; [done | by apply IH].
Qed.

(** ** The pipeline registry, one call at a time *)

Ltac unfold_registry :=
  unfold get_orchestrator, orchestrators_getitem, orchestrators_setitem,
    construct, mbind, M_bind, mret, M_ret; simpl.

Lemma get_orchestrator_unknown mode st :
  orchestrators st !! mode = None →
  get_orchestrator mode st = (Raise (Exn (KeyError (VStr mode))), st).
Proof. intros H. unfold_registry. by rewrite H. Qed.

Lemma get_orchestrator_stored mode st o :
  orchestrators st !! mode = Some (Some o) →
  get_orchestrator mode st = (Ok (Some o), st).
Proof. intros H. unfold_registry. rewrite H. simpl. by rewrite H. Qed.

Lemma get_orchestrator_first mode st :
  orchestrators st !! mode = Some None →
  let o := Handle (length (instances st)) mode in
  get_orchestrator mode st =
    (Ok (Some o),
     State (<[mode := Some o]> (orchestrators st)) (sessions st) (heap st)
           (instances st ++ [o]) (invoked st)).
Proof.
  intros H o. unfold_registry. rewrite H. simpl. by rewrite lookup_insert_eq.
Qed.

(** Whatever the registry holds, resolving a pipeline leaves the session
    store, the heap and the call log alone, and yields an instance when it
    returns at all. *)
Lemma get_orchestrator_ok mode st r st1 :
  get_orchestrator mode st = (Ok r, st1) →
  ∃ o, r = Some o ∧ orchestrators st1 !! mode = Some (Some o) ∧
       sessions st1 = sessions st ∧ heap st1 = heap st ∧ invoked st1 = invoked st.
Proof.
  destruct (orchestrators st !! mode) as [[o|]|] eqn:E.
  - rewrite (get_orchestrator_stored _ _ _ E). intros [= <- <-]. eauto 10.
  - rewrite (get_orchestrator_first _ _ E). intros [= <- <-].
    eexists. split; [done|]. simpl. by rewrite lookup_insert_eq.
  - rewrite (get_orchestrator_unknown _ _ E). discriminate.
Qed.

(** ** Validation of a search request *)

(** C3. Search validation short-circuits in order.  An abstract of fewer
    than 50 code points is rejected with 400 [abstract_too_short] whatever
    the mode is; otherwise a mode outside arxiv/local is rejected with 400
    [invalid_mode].  In both cases the whole state is returned as it was:
    no pipeline instance is constructed, no pipeline method is invoked, and
    no session is created. *)
Theorem search_validation_short_circuits w request st :
  ((length (search_abstract request) < 50)%nat →
   search_papers w request st = (Raise abstract_too_short, st)) ∧
  ((50 ≤ length (search_abstract request))%nat →
   search_mode request ∉ [lit "arxiv"; lit "local"] →
   search_papers w request st = (Raise invalid_mode, st)).
Proof.
  split.
  - intros Hshort. apply try_except_http.
    by rewrite bool_decide_eq_true_2.
  - intros Hlong Hmode. apply try_except_http.
    rewrite bool_decide_eq_false_2 by lia.
    by rewrite (bool_decide_eq_false_2 _ Hmode).
Qed.

Lemma search_validation_short_circuits_witness :
  search_papers demo_world
    {| search_mode := lit "telnet"; search_abstract := lit "short" |}
    demo_state = (Raise abstract_too_short, demo_state) ∧
  search_papers demo_world
    {| search_mode := lit "telnet"; search_abstract := demo_abstract |}
    demo_state = (Raise invalid_mode, demo_state).
Proof.
  split.
  - apply (search_validation_short_circuits demo_world
             {| search_mode := lit "telnet"; search_abstract := lit "short" |}).
    simpl. lia.
  - apply (search_validation_short_circuits demo_world
             {| search_mode := lit "telnet"; search_abstract := demo_abstract |}).
    + simpl. lia.
    + apply (proj1 (bool_decide_eq_false _)). vm_compute. reflexivity.
Defined.

(** ** Validation of a summary request *)

(** C2. Summarize classifies its errors in a fixed order: an unknown
    session id gives 404 [session_not_found] for any paper index; a known
    session with a paper index outside 1..5 gives 400 [invalid_paper_index]
    whatever the session holds; a known session with a paper index in 1..5
    above the session's paper count gives 404 [paper_not_found].  In all
    three cases the state is returned as it was. *)
Theorem summary_errors_in_order w request st :
  (sessions st !! session_id request = None →
   generate_summary w request st = (Raise session_not_found, st)) ∧
  (∀ results,
     sessions st !! session_id request = Some results →
     paper_index request < 1 ∨ 5 < paper_index request →
     generate_summary w request st = (Raise invalid_paper_index, st)) ∧
  (∀ results count,
     sessions st !! session_id request = Some results →
     1 ≤ paper_index request ≤ 5 →
     paper_count (heap st) results = Return count →
     count < paper_index request →
     generate_summary w request st = (Raise paper_not_found, st)).
Proof.
  split; [|split].
  - intros Hnone. apply try_except_http, bind_raise. unfold locate_paper.
    rewrite (bind_step _ _ _ _ _ (sessions_contains_run _ _)).
    by rewrite Hnone, bool_decide_eq_false_2 by (by intros [? ?]).
  - intros results Hsome Hrange. apply try_except_http, bind_raise.
    unfold locate_paper.
    rewrite (bind_step _ _ _ _ _ (sessions_contains_run _ _)).
    rewrite bool_decide_eq_true_2 by eauto. cbv iota beta delta [negb].
    rewrite (bind_step _ _ _ _ _ (sessions_getitem_run _ _ _ Hsome)).
    replace ((paper_index request <? 1) || (paper_index request >? 5)) with true; [done|].
    symmetry. apply orb_true_iff. lia.
  - intros results count Hsome Hrange Hcount Hbig. apply try_except_http, bind_raise.
    apply res_bind_return in Hcount as (papers & Hpapers & Hlen).
    unfold locate_paper.
    rewrite (bind_step _ _ _ _ _ (sessions_contains_run _ _)).
    rewrite bool_decide_eq_true_2 by eauto. cbv iota beta delta [negb].
    rewrite (bind_step _ _ _ _ _ (sessions_getitem_run _ _ _ Hsome)).
    replace ((paper_index request <? 1) || (paper_index request >? 5)) with false
      by (symmetry; apply orb_false_iff; lia).
    rewrite (bind_step _ _ _ _ _ (eval_return _ _ _ Hpapers)).
    rewrite (bind_step _ _ _ _ _ (eval_return _ _ _ Hlen)).
    replace (paper_index request >? count) with true by lia. done.
Qed.

Lemma summary_errors_in_order_witness :
  generate_summary demo_world
    {| summary_mode := lit "arxiv"; paper_index := 9; session_id := lit "nowhere" |}
    demo_state = (Raise session_not_found, demo_state) ∧
  generate_summary demo_world (demo_summary 6) demo_state
    = (Raise invalid_paper_index, demo_state) ∧
  generate_summary demo_world (demo_summary 3) demo_state
    = (Raise paper_not_found, demo_state).
Proof.
  split; [|split].
  - apply (summary_errors_in_order demo_world
      {| summary_mode := lit "arxiv"; paper_index := 9; session_id := lit "nowhere" |}).
    vm_compute. reflexivity.
  - apply (proj1 (proj2 (summary_errors_in_order demo_world (demo_summary 6) demo_state))
             (VRef 1)).
    + vm_compute. reflexivity.
    + simpl. lia.
  - apply (proj2 (proj2 (summary_errors_in_order demo_world (demo_summary 3) demo_state))
             (VRef 1) 2).
    + vm_compute. reflexivity.
    + simpl. lia.
    + vm_compute. reflexivity.
    + simpl. lia.
Defined.

(** ** What a successful search did *)

Lemma raise_not_ok {A} (r : raised) st (a : A) st' : raise r st ≠ (Ok a, st').
Proof. discriminate. Qed.

Lemma call_ok inv out st v st' :
  call inv out st = (Ok v, st') →
  ∃ allocated, out = Returns v allocated ∧
    st' = State (orchestrators st) (sessions st) (heap st ∪ allocated)
                (instances st) (invoked st ++ [inv]).
Proof.
  unfold call. destruct out as [v0 allocated|e]; [|discriminate].
  intros [= <- <-]. eauto.
Qed.

Lemma search_papers_ok_inv w request st resp st' :
  search_papers w request st = (Ok resp, st') →
  let sid := search_mode request ++ lit "_" ++ strftime (now w) in
  (50 ≤ length (search_abstract request))%nat ∧
  search_mode request ∈ [lit "arxiv"; lit "local"] ∧
  ∃ o st1 results allocated,
    get_orchestrator (search_mode request) st = (Ok (Some o), st1) ∧
    run_pipeline w o (search_abstract request) = Returns results allocated ∧
    py_bool (heap st ∪ allocated) (Val results) = Return true ∧
    st' = State (orchestrators st1) (<[sid := results]> (sessions st))
                (heap st ∪ allocated) (instances st1)
                (invoked st ++ [RunPipeline o (search_abstract request)]) ∧
    resp_session_id resp = sid ∧
    resp_mode resp = search_mode request ∧
    resp_query_abstract resp = search_abstract request ∧
    format_top_5 (heap st') results = Return (resp_top_5_papers resp) ∧
    comparative_analysis (heap st') results = Return (resp_comparative_analysis resp).
Proof.
  intros H sid. apply try_except_ok in H.
  case_bool_decide as Hlen; [by apply raise_not_ok in H|].
  case_bool_decide as Hmode; [|by apply raise_not_ok in H].
  cbv iota beta delta [negb] in H.
  apply bind_ok in H as (orchestrator & st1 & Hget & H).
  destruct (get_orchestrator_ok _ _ _ _ Hget) as (o & -> & _ & Hs1 & Hh1 & Hi1).
  apply bind_ok in H as (results & st2 & Hcall & H).
  apply call_ok in Hcall as (allocated & Hrun & ->).
  apply bind_ok in H as (nonempty & st3 & Hbool & H).
  apply eval_ok in Hbool as [Hbool ->]. simpl in Hbool.
  destruct nonempty; [|by apply raise_not_ok in H].
  cbv iota beta delta [negb] in H.
  apply bind_ok in H as ([] & st4 & Hset & H).
  injection Hset as <-.
  apply bind_ok in H as (timestamp & st5 & Ht & H). apply eval_ok in Ht as [Ht ->].
  apply bind_ok in H as (keywords & st6 & Hk & H). apply eval_ok in Hk as [Hk ->].
  apply bind_ok in H as (metrics & st7 & Hm & H). apply eval_ok in Hm as [Hm ->].
  apply bind_ok in H as (top & st8 & Htop & H). apply eval_ok in Htop as [Htop ->].
  apply bind_ok in H as (analysis & st9 & Han & H). apply eval_ok in Han as [Han ->].
  injection H as <- <-. simpl in *.
  split; [lia|]. split; [done|].
  exists o, st1, results, allocated.
  rewrite Hs1, Hh1, Hi1 in *. by repeat split.
Qed.

(** ** The response of a successful search *)

Lemma py_get_return h r k dflt x :
  py_get h r k dflt = Return x →
  ∃ d, shape_of h r = Return (SDict d) ∧ x = from_option Val dflt (d !! k).
Proof.
  unfold py_get. intros H. apply res_bind_return in H as (s & Hs & H).
  destruct s; try discriminate. injection H as <-. eauto.
Qed.

Lemma shape_of_det h r s1 s2 :
  shape_of h r = Return s1 → shape_of h r = Return s2 → s1 = s2.
Proof. congruence. Qed.

Lemma format_paper_abstract h paper entry :
  format_paper h paper = Return entry →
  ∃ d, shape_of h (Val paper) = Return (SDict d) ∧
       truncated (d !! lit "abstract") (entry_abstract entry).
Proof.
  unfold format_paper. intros H.
  repeat (apply res_bind_return in H as (? & ?%py_get_return & H)).
  apply res_bind_return in H as (head & Hhead & H).
  apply res_bind_return in H as (abstract & Habs & H).
  injection H as <-. simpl.
  repeat match goal with
  | H1 : ∃ d, shape_of h (Val paper) = Return (SDict d) ∧ _ |- _ =>
      destruct H1 as (? & ? & ->)
  end.
  repeat match goal with
  | H1 : shape_of h (Val paper) = Return (SDict ?d1),
    H2 : shape_of h (Val paper) = Return (SDict ?d2) |- _ =>
      assert (d1 = d2) by congruence; subst d1; clear H1
  end.
  match goal with H1 : shape_of h (Val paper) = Return (SDict ?d) |- _ =>
    exists d; split; [exact H1|] end.
  unfold truncated.
  match goal with |- context [?d !! lit "abstract"] =>
    destruct (d !! lit "abstract") as [[ | | | |a|l]|] eqn:E end;
    rewrite ?E in Hhead; simpl in Hhead; try discriminate.
  - injection Hhead as <-. simpl in Habs. by injection Habs as <-.
  - unfold py_slice_to in Hhead. simpl in Hhead.
    destruct (h !! l) as [[xs|d']|]; simpl in Hhead; try discriminate.
    injection Hhead as <-. discriminate.
  - injection Hhead as <-. simpl in Habs. by injection Habs as <-.
Qed.

Lemma format_top_5_papers h results entries :
  format_top_5 h results = Return entries →
  ∃ papers, visited_papers h results = Return papers ∧
            Forall2 (λ paper entry, format_paper h paper = Return entry) papers entries.
Proof.
  unfold format_top_5, visited_papers. intros H.
  apply res_bind_return in H as (papers & Hp & H).
  apply res_bind_return in H as (first & Hf & H).
  apply res_bind_return in H as (items & Hi & H).
  exists items. split; [|by apply mapM_res_Forall2].
  rewrite Hp. simpl. rewrite Hf. simpl. exact Hi.
Qed.

(** C1. In the response of a successful search every paper entry embeds as
    its abstract the first 300 code points of the source paper's abstract
    followed by the three characters "...", whether or not anything was cut
    off; a source paper without an abstract gives exactly "...".  The
    entries correspond one to one, in order, to the papers the search loop
    visited. *)
Theorem search_abstract_truncation w request st resp st' :
  search_papers w request st = (Ok resp, st') →
  ∃ o results allocated papers,
    run_pipeline w o (search_abstract request) = Returns results allocated ∧
    visited_papers (heap st') results = Return papers ∧
    Forall2 (λ paper entry,
               ∃ d, shape_of (heap st') (Val paper) = Return (SDict d) ∧
                    truncated (d !! lit "abstract") (entry_abstract entry))
            papers (resp_top_5_papers resp) ∧
    length (lit "...") = 3%nat.
Proof.
  intros H. apply search_papers_ok_inv in H
    as (_ & _ & o & st1 & results & allocated & _ & Hrun & _ & _ & _ & _ & _ & Htop & _).
  apply format_top_5_papers in Htop as (papers & Hvisit & Hall).
  exists o, results, allocated, papers. repeat split; [done..|].
  eapply Forall2_impl; [exact Hall|].
  intros paper entry Hf. by apply format_paper_abstract.
Qed.

Lemma search_abstract_truncation_witness :
  ∃ o results allocated papers,
    run_pipeline demo_world o (search_abstract demo_search) = Returns results allocated ∧
    visited_papers (heap demo_state) results = Return papers ∧
    Forall2 (λ paper entry,
               ∃ d, shape_of (heap demo_state) (Val paper) = Return (SDict d) ∧
                    truncated (d !! lit "abstract") (entry_abstract entry))
            papers (resp_top_5_papers demo_response) ∧
    length (lit "...") = 3%nat.
Proof.
  apply (search_abstract_truncation demo_world demo_search initial_state).
  vm_compute. reflexivity.
Defined.

(** ** Session identifiers *)

Lemma zero_padded_length width n : length (zero_padded width n) = width.
Proof.
  revert n. induction width as [|w IH]; intros n; simpl; [done|].
  rewrite length_app, IH. simpl. lia.
Qed.

Lemma zero_padded_digits width n : Forall is_digit (zero_padded width n).
Proof.
  revert n. induction width as [|w IH]; intros n; simpl; [constructor|].
  apply Forall_app. split; [apply IH|].
  constructor; [|constructor]. unfold is_digit.
  pose proof (Nat.mod_upper_bound n 10). lia.
Qed.

Lemma decimal_value_snoc s c :
  decimal_value (s ++ [c]) = (10 * decimal_value s + N.to_nat (c - 48))%nat.
Proof. unfold decimal_value. by rewrite foldl_app. Qed.

(** The digits written are those of the number. *)
Lemma zero_padded_value width n :
  decimal_value (zero_padded width n) = (n mod 10 ^ width)%nat.
Proof.
  revert n. induction width as [|w IH]; intros n.
  - change (0 = n mod 10 ^ 0)%nat. by rewrite Nat.pow_0_r, Nat.mod_1_r.
  - cbn [zero_padded]. rewrite decimal_value_snoc, IH.
    replace (N.to_nat (48 + N.of_nat (n mod 10) - 48)) with (n mod 10)%nat by lia.
    rewrite Nat.pow_succ_r', Nat.Div0.mod_mul_r. lia.
Qed.

Lemma strftime_shaped dt : timestamp_shaped (strftime dt).
Proof.
  exists (zero_padded 4 (year dt) ++ zero_padded 2 (month dt) ++ zero_padded 2 (day dt)),
         (zero_padded 2 (hour dt) ++ zero_padded 2 (minute dt) ++ zero_padded 2 (second dt)).
  split; [|split; [|split; [|split]]].
  - unfold strftime. by rewrite <- !app_assoc.
  - by rewrite !length_app, !zero_padded_length.
  - by rewrite !length_app, !zero_padded_length.
  - rewrite !Forall_app. auto using zero_padded_digits.
  - rewrite !Forall_app. auto using zero_padded_digits.
Qed.

(** ** The paper list of a search response *)

Lemma format_paper_of_str h s : format_paper h (VStr s) = Throw AttributeError.
Proof. reflexivity. Qed.

Lemma format_top_5_length h results entries :
  format_top_5 h results = Return entries →
  ∃ count, paper_count h results = Return count ∧
    (length entries ≤ 5)%nat ∧ Z.of_nat (length entries) ≤ count.
Proof.
  unfold format_top_5, paper_count. intros H.
  apply res_bind_return in H as (papers & Hp & H). rewrite Hp. simpl.
  apply res_bind_return in H as (first & Hf & H).
  apply res_bind_return in H as (items & Hi & H).
  apply mapM_res_Forall2 in H. pose proof (Forall2_length _ _ _ H) as Hlen.
  unfold py_slice_to in Hf. unfold py_len.
  destruct (shape_of h papers) as [shape|]; [|discriminate]. simpl in *.
  destruct shape as [ | | | |s|xs|d]; try discriminate.
  - injection Hf as <-. simpl in Hi. injection Hi as <-.
    destruct (take 5 s) as [|c cs] eqn:E.
    + inversion H; subst. exists (Z.of_nat (length s)).
      split; [done|]. simpl. lia.
    + simpl in H. inversion H as [|???? Hbad]; subst.
      by rewrite format_paper_of_str in Hbad.
  - injection Hf as <-. simpl in Hi. injection Hi as <-.
    exists (Z.of_nat (length xs)). split; [done|].
    rewrite <- Hlen, length_take. lia.
Qed.

(** ** The session a search stores *)

(** C4 (as the code has it). A successful search binds the identifier
    "{mode}_{YYYYMMDD_HHMMSS}", built from the request's mode and the current
    time, to the ResultSet the pipeline returned, and leaves every other
    binding of the session store alone.  When the identifier was not in the
    store this adds exactly one session; when it was, the session stored
    under it is replaced and the number of sessions stays the same.  The
    response lists at most 5 papers and at most as many as the pipeline
    returned. *)
Theorem search_stores_session w request st resp st' :
  search_papers w request st = (Ok resp, st') →
  let sid := search_mode request ++ lit "_" ++ strftime (now w) in
  search_mode request ∈ [lit "arxiv"; lit "local"] ∧
  (50 ≤ length (search_abstract request))%nat ∧
  resp_session_id resp = sid ∧
  timestamp_shaped (strftime (now w)) ∧
  ∃ o results allocated count,
    run_pipeline w o (search_abstract request) = Returns results allocated ∧
    sessions st' = <[sid := results]> (sessions st) ∧
    (sessions st !! sid = None → size (sessions st') = S (size (sessions st))) ∧
    (is_Some (sessions st !! sid) → dom (sessions st') = dom (sessions st)) ∧
    paper_count (heap st') results = Return count ∧
    (length (resp_top_5_papers resp) ≤ 5)%nat ∧
    Z.of_nat (length (resp_top_5_papers resp)) ≤ count.
Proof.
  intros H sid. apply search_papers_ok_inv in H
    as (Hlen & Hmode & o & st1 & results & allocated & _ & Hrun & _ & -> & Hsid & _ & _ & Htop & _).
  fold sid in Hsid. simpl in *.
  apply format_top_5_length in Htop as (count & Hcount & H5 & Hle).
  split; [done|]. split; [done|]. split; [done|].
  split; [apply strftime_shaped|].
  exists o, results, allocated, count. repeat split; try done.
  - intros Hfresh. by apply map_size_insert_None.
  - intros Hold. rewrite dom_insert_L.
    apply elem_of_dom in Hold.
    by apply subseteq_union_1_L, singleton_subseteq_l.
Qed.

Lemma search_stores_session_witness :
  let sid := search_mode demo_search ++ lit "_" ++ strftime (now demo_world) in
  search_mode demo_search ∈ [lit "arxiv"; lit "local"] ∧
  (50 ≤ length (search_abstract demo_search))%nat ∧
  resp_session_id demo_response = sid ∧
  timestamp_shaped (strftime (now demo_world)) ∧
  ∃ o results allocated count,
    run_pipeline demo_world o (search_abstract demo_search) = Returns results allocated ∧
    sessions demo_state = <[sid := results]> (sessions initial_state) ∧
    (sessions initial_state !! sid = None →
     size (sessions demo_state) = S (size (sessions initial_state))) ∧
    (is_Some (sessions initial_state !! sid) →
     dom (sessions demo_state) = dom (sessions initial_state)) ∧
    paper_count (heap demo_state) results = Return count ∧
    (length (resp_top_5_papers demo_response) ≤ 5)%nat ∧
    Z.of_nat (length (resp_top_5_papers demo_response)) ≤ count.
Proof.
  apply (search_stores_session demo_world demo_search initial_state).
  vm_compute. reflexivity.
Defined.

(** C4 as stated fails on two searches of one mode within one second: the
    second is successful and adds no session; it replaces the ResultSet the
    first one stored under the shared identifier. *)
Lemma search_same_second_adds_no_session :
  let st2 := (search_papers later_world demo_search demo_state).2 in
  is_ok (search_papers later_world demo_search demo_state).1 = true ∧
  sessions demo_state !! demo_sid = Some (VRef 1) ∧
  sessions st2 !! demo_sid = Some (VRef 5) ∧
  dom (sessions st2) = dom (sessions demo_state) ∧
  size (sessions st2) ≠ S (size (sessions demo_state)).
Proof. vm_compute. repeat split. lia. Qed.

(** ** A pipeline that reports failure *)

Lemma call_run_pipeline_returns w o abstract st results allocated :
  run_pipeline w o abstract = Returns results allocated →
  call_run_pipeline w (Some o) abstract st =
    (Ok results, State (orchestrators st) (sessions st) (heap st ∪ allocated)
                       (instances st) (invoked st ++ [RunPipeline o abstract])).
Proof. unfold call_run_pipeline, call. by intros ->. Qed.

(** A falsy pipeline result ends the search before anything is stored. *)
Lemma search_papers_falsy w request st o st1 results allocated :
  (50 ≤ length (search_abstract request))%nat →
  search_mode request ∈ [lit "arxiv"; lit "local"] →
  get_orchestrator (search_mode request) st = (Ok (Some o), st1) →
  run_pipeline w o (search_abstract request) = Returns results allocated →
  py_bool (heap st ∪ allocated) (Val results) = Return false →
  search_papers w request st =
    (Raise search_failed,
     State (orchestrators st1) (sessions st) (heap st ∪ allocated) (instances st1)
           (invoked st ++ [RunPipeline o (search_abstract request)])).
Proof.
  intros Hlen Hmode Hget Hrun Hfalsy.
  destruct (get_orchestrator_ok _ _ _ _ Hget) as (? & [= <-] & _ & Hs1 & Hh1 & Hi1).
  apply try_except_http.
  rewrite bool_decide_eq_false_2 by lia.
  rewrite (bool_decide_eq_true_2 _ Hmode). cbv iota beta delta [negb].
  rewrite (bind_step _ _ _ _ _ Hget).
  rewrite (bind_step _ _ _ _ _ (call_run_pipeline_returns _ _ _ _ _ _ Hrun)).
  rewrite Hs1, Hh1, Hi1.
  erewrite bind_step; [|apply eval_return; simpl; exact Hfalsy].
  reflexivity.
Qed.

(** C5. When a validated search request reaches a pipeline whose
    [run_pipeline] returns [None], the search answers 500 [search_failed]
    and the session store is what it was: no session is created.  Objects
    that existed before the call are untouched. *)
Theorem search_failed_creates_no_session w request st o st1 allocated :
  (50 ≤ length (search_abstract request))%nat →
  search_mode request ∈ [lit "arxiv"; lit "local"] →
  get_orchestrator (search_mode request) st = (Ok (Some o), st1) →
  run_pipeline w o (search_abstract request) = Returns VNone allocated →
  ∃ st', search_papers w request st = (Raise search_failed, st') ∧
         sessions st' = sessions st ∧
         heap st' = heap st ∪ allocated ∧
         ∀ l x, heap st !! l = Some x → heap st' !! l = Some x.
Proof.
  intros Hlen Hmode Hget Hrun.
  eexists. split; [by eapply search_papers_falsy|].
  simpl. repeat split. intros l x Hl. by apply lookup_union_Some_l.
Qed.

Lemma search_failed_creates_no_session_witness :
  ∃ st', search_papers none_world demo_search demo_state = (Raise search_failed, st') ∧
         sessions st' = sessions demo_state ∧
         heap st' = heap demo_state ∪ ∅ ∧
         ∀ l x, heap demo_state !! l = Some x → heap st' !! l = Some x.
Proof.
  apply (search_failed_creates_no_session none_world demo_search demo_state
           (Handle 0 (lit "arxiv")) demo_state ∅).
  - simpl. lia.
  - apply (bool_decide_unpack _). vm_compute. exact I.
  - vm_compute. reflexivity.
  - reflexivity.
Defined.

(** ** Locating the paper of a summary request *)

Lemma locate_paper_ok request st results paper st' :
  locate_paper request st = (Ok (results, paper), st') →
  st' = st ∧
  sessions st !! session_id request = Some results ∧
  1 ≤ paper_index request ≤ 5 ∧
  ∃ papers count,
    py_get (heap st) (Val results) (lit "top_5_papers") (Fresh (OList [])) = Return papers ∧
    py_len (heap st) papers = Return count ∧
    paper_index request ≤ count ∧
    py_getitem_int (heap st) papers (paper_index request - 1) = Return paper.
Proof.
  unfold locate_paper. intros H.
  apply bind_ok in H as (known & st1 & Hknown & H). injection Hknown as <- <-.
  case_bool_decide as Hin; [|by apply raise_not_ok in H].
  cbv iota beta delta [negb] in H.
  apply bind_ok in H as (results' & st2 & Hget & H).
  unfold sessions_getitem in Hget.
  destruct (sessions st !! session_id request) as [r|] eqn:Hsome; [|discriminate].
  injection Hget as <- <-.
  destruct ((paper_index request <? 1) || (paper_index request >? 5)) eqn:Hrange;
    [by apply raise_not_ok in H|].
  apply orb_false_iff in Hrange as [Hlo Hhi].
  apply bind_ok in H as (papers & st3 & Hp & H). apply eval_ok in Hp as [Hp ->].
  apply bind_ok in H as (count & st4 & Hc & H). apply eval_ok in Hc as [Hc ->].
  destruct (paper_index request >? count) eqn:Hcount; [by apply raise_not_ok in H|].
  apply bind_ok in H as (paper' & st5 & Hi & H). apply eval_ok in Hi as [Hi ->].
  injection H as <- <- <-.
  split; [done|]. split; [done|]. split; [lia|].
  exists papers, count. repeat split; [done..|lia|done].
Qed.

Lemma locate_paper_run request st results papers count paper :
  sessions st !! session_id request = Some results →
  1 ≤ paper_index request ≤ 5 →
  py_get (heap st) (Val results) (lit "top_5_papers") (Fresh (OList [])) = Return papers →
  py_len (heap st) papers = Return count →
  paper_index request ≤ count →
  py_getitem_int (heap st) papers (paper_index request - 1) = Return paper →
  locate_paper request st = (Ok (results, paper), st).
Proof.
  intros Hsome Hrange Hp Hc Hle Hi. unfold locate_paper.
  rewrite (bind_step _ _ _ _ _ (sessions_contains_run _ _)).
  rewrite bool_decide_eq_true_2 by eauto. cbv iota beta delta [negb].
  rewrite (bind_step _ _ _ _ _ (sessions_getitem_run _ _ _ Hsome)).
  replace ((paper_index request <? 1) || (paper_index request >? 5)) with false
    by (symmetry; apply orb_false_iff; lia).
  rewrite (bind_step _ _ _ _ _ (eval_return _ _ _ Hp)).
  rewrite (bind_step _ _ _ _ _ (eval_return _ _ _ Hc)).
  replace (paper_index request >? count) with false by lia.
  by rewrite (bind_step _ _ _ _ _ (eval_return _ _ _ Hi)).
Qed.

Lemma generate_summary_located w request st results paper :
  locate_paper request st = (Ok (results, paper), st) →
  generate_summary w request st =
    try_except (summarize_paper w request results paper) st.
Proof.
  intros H. unfold generate_summary, try_except.
  by rewrite (bind_step _ _ _ _ _ H).
Qed.

(** ** A summarizer that reports failure *)

Lemma call_generate_summary_returns w o paper st summary allocated :
  pipeline_generate_summary w o paper = Returns summary allocated →
  call_generate_summary w (Some o) paper st =
    (Ok summary, State (orchestrators st) (sessions st) (heap st ∪ allocated)
                       (instances st) (invoked st ++ [GenerateSummary o paper])).
Proof. unfold call_generate_summary, call. by intros ->. Qed.

Lemma summarize_paper_falsy w request results paper st o st1 summary allocated :
  get_orchestrator (summary_mode request) st = (Ok (Some o), st1) →
  pipeline_generate_summary w o paper = Returns summary allocated →
  py_bool (heap st ∪ allocated) (Val summary) = Return false →
  summarize_paper w request results paper st =
    (Raise summary_failed,
     State (orchestrators st1) (sessions st) (heap st ∪ allocated) (instances st1)
           (invoked st ++ [GenerateSummary o paper])).
Proof.
  intros Hget Hsum Hfalsy.
  destruct (get_orchestrator_ok _ _ _ _ Hget) as (? & [= <-] & _ & Hs1 & Hh1 & Hi1).
  unfold summarize_paper.
  rewrite (bind_step _ _ _ _ _ Hget).
  rewrite (bind_step _ _ _ _ _ (call_generate_summary_returns _ _ _ _ _ _ Hsum)).
  rewrite Hs1, Hh1, Hi1.
  erewrite bind_step; [|apply eval_return; simpl; exact Hfalsy].
  reflexivity.
Qed.

(** C6. When a summary request passes session and paper-index validation
    and the summarizer returns [None], the request answers 500
    [summary_failed]; the session store is what it was and every object
    that existed before the call -- the session's ResultSet, its paper list
    and the target paper with whatever summary it had -- is unchanged. *)
Theorem summary_failed_changes_nothing w request st results paper o st1 allocated :
  locate_paper request st = (Ok (results, paper), st) →
  get_orchestrator (summary_mode request) st = (Ok (Some o), st1) →
  pipeline_generate_summary w o paper = Returns VNone allocated →
  ∃ st', generate_summary w request st = (Raise summary_failed, st') ∧
         sessions st' = sessions st ∧
         heap st' = heap st ∪ allocated ∧
         ∀ l x, heap st !! l = Some x → heap st' !! l = Some x.
Proof.
  intros Hloc Hget Hsum. eexists. split.
  - rewrite (generate_summary_located _ _ _ _ _ Hloc).
    apply try_except_http. by eapply summarize_paper_falsy.
  - simpl. repeat split. intros l x Hl. by apply lookup_union_Some_l.
Qed.

Lemma summary_failed_changes_nothing_witness :
  ∃ st', generate_summary none_world (demo_summary 1) demo_state
           = (Raise summary_failed, st') ∧
         sessions st' = sessions demo_state ∧
         heap st' = heap demo_state ∪ ∅ ∧
         ∀ l x, heap demo_state !! l = Some x → heap st' !! l = Some x.
Proof.
  apply (summary_failed_changes_nothing none_world (demo_summary 1) demo_state
           (VRef 1) (VRef 3) (Handle 0 (lit "arxiv")) demo_state ∅).
  - vm_compute. reflexivity.
  - vm_compute. reflexivity.
  - reflexivity.
Defined.

(** ** Frame reasoning for handler computations *)

Section Preserves.
Context (R : relation state) `{!PreOrder R}.

Lemma preserves_ret {A} (a : A) : preserves R (mret a).
Proof. intros st. simpl. reflexivity. Qed.

Lemma preserves_raise {A} r : preserves R (@raise A r).
Proof. intros st. simpl. reflexivity. Qed.

Lemma preserves_bind {A B} (m : M A) (f : A → M B) :
  preserves R m → (∀ a, preserves R (f a)) → preserves R (m ≫= f).
Proof.
  intros Hm Hf st. rewrite bind_run. specialize (Hm st).
  destruct (m st) as [[a|r] st1]; simpl in *; [|done].
  etrans; [exact Hm | apply Hf].
Qed.

Lemma preserves_try_except {A} (body : M A) :
  preserves R body → preserves R (try_except body).
Proof.
  intros Hb st. specialize (Hb st). unfold try_except.
  by destruct (body st) as [[a|[c d|e]] st1].
Qed.

Lemma preserves_eval {A} (e : gmap loc obj → res A) : preserves R (eval e).
Proof. intros st. unfold eval. destruct (e (heap st)); simpl; reflexivity. Qed.

Lemma preserves_sessions_contains sid : preserves R (sessions_contains sid).
Proof. intros st. simpl. reflexivity. Qed.

Lemma preserves_sessions_getitem sid : preserves R (sessions_getitem sid).
Proof.
  intros st. unfold sessions_getitem.
  destruct (sessions st !! sid); simpl; reflexivity.
Qed.

Lemma preserves_if {A} (b : bool) (m1 m2 : M A) :
  preserves R m1 → preserves R m2 → preserves R (if b then m1 else m2).
Proof. by destruct b. Qed.
End Preserves.

(** ** The registry over the life of the process *)

Lemma registry_extends_same st st' :
  orchestrators st' = orchestrators st → instances st' = instances st →
  registry_extends st st'.
Proof.
  intros Ho Hi. unfold registry_extends, registry_inv. rewrite Ho, Hi. done.
Qed.

#[global] Instance registry_extends_preorder : PreOrder registry_extends.
Proof.
  split.
  - intros st. by apply registry_extends_same.
  - intros st1 st2 st3 (Hinv12 & Hkeep12 & Hpre12) (Hinv23 & Hkeep23 & Hpre23).
    split; [auto|]. split; [auto|]. by etrans.
Qed.

Lemma get_orchestrator_extends mode : preserves registry_extends (get_orchestrator mode).
Proof.
  intros st. destruct (orchestrators st !! mode) as [[o|]|] eqn:E.
  - rewrite (get_orchestrator_stored _ _ _ E). reflexivity.
  - rewrite (get_orchestrator_first _ _ E). simpl.
    set (o := Handle (length (instances st)) mode).
    split; [|split].
    + intros (Hkeys & Hstored & Hmade & Hnodup). unfold registry_inv. simpl.
      assert (∀ p, p ∈ instances st → handle_mode p ≠ mode) as Hnew.
      { intros p Hp <-. apply Hmade in Hp. congruence. }
      split; [|split; [|split]].
      * intros m. destruct (decide (mode = m)) as [<-|Hne].
        -- rewrite lookup_insert_eq. split; [intros _|by eauto].
           apply Hkeys. by rewrite E.
        -- by rewrite lookup_insert_ne.
      * intros m p. destruct (decide (mode = m)) as [<-|Hne].
        -- rewrite lookup_insert_eq. intros [= <-].
           split; [|done]. apply elem_of_app. right. by apply list_elem_of_singleton.
        -- rewrite lookup_insert_ne by done. intros Hp.
           apply Hstored in Hp as [Hin Hm]. split; [|done].
           apply elem_of_app. by left.
      * intros p [Hin|Hin%list_elem_of_singleton]%elem_of_app.
        -- rewrite lookup_insert_ne by (symmetry; by apply Hnew). by apply Hmade.
        -- subst p. simpl. by rewrite lookup_insert_eq.
      * rewrite fmap_app. apply NoDup_app. split; [done|]. split; [|apply NoDup_singleton].
        intros m (p & -> & Hin)%list_elem_of_fmap Hm%list_elem_of_singleton.
        by apply (Hnew p).
    + intros m p Hm. simpl. rewrite lookup_insert_ne; [done|]. congruence.
    + simpl. by apply prefix_app_r.
  - rewrite (get_orchestrator_unknown _ _ E). reflexivity.
Qed.

Lemma sessions_setitem_extends sid results :
  preserves registry_extends (sessions_setitem sid results).
Proof. intros st. by apply registry_extends_same. Qed.

Lemma setitem_extends x k v : preserves registry_extends (setitem x k v).
Proof.
  intros st. unfold setitem.
  destruct (py_setitem_str (heap st) x k v); by apply registry_extends_same.
Qed.

Lemma call_extends inv out : preserves registry_extends (call inv out).
Proof. intros st. unfold call. destruct out; by apply registry_extends_same. Qed.

Lemma call_run_pipeline_extends w orchestrator abstract :
  preserves registry_extends (call_run_pipeline w orchestrator abstract).
Proof.
  destruct orchestrator; [apply call_extends | apply preserves_raise, _].
Qed.

Lemma call_generate_summary_extends w orchestrator paper :
  preserves registry_extends (call_generate_summary w orchestrator paper).
Proof.
  destruct orchestrator; [apply call_extends | apply preserves_raise, _].
Qed.

Ltac preserves_step :=
  first
    [ apply get_orchestrator_extends
    | apply sessions_setitem_extends
    | apply setitem_extends
    | apply call_run_pipeline_extends
    | apply call_generate_summary_extends
    | apply preserves_sessions_contains, _
    | apply preserves_sessions_getitem, _
    | apply preserves_eval, _
    | apply preserves_ret, _
    | apply preserves_raise, _
    | apply preserves_try_except
    | apply preserves_if
    | apply preserves_bind; [apply _| |intros ?] ].

Lemma search_papers_extends w request :
  preserves registry_extends (search_papers w request).
Proof. unfold search_papers. repeat preserves_step. Qed.

Lemma generate_summary_extends w request :
  preserves registry_extends (generate_summary w request).
Proof.
  unfold generate_summary, locate_paper, summarize_paper. repeat preserves_step.
Qed.

Lemma get_session_extends sid : preserves registry_extends (get_session sid).
Proof.
  intros st. unfold get_session. destruct (sessions st !! sid); reflexivity.
Qed.

Lemma step_extends st q : registry_extends st (step st q).
Proof.
  destruct q; simpl;
    [apply search_papers_extends | apply generate_summary_extends | apply get_session_extends].
Qed.

Lemma run_extends qs st : registry_extends st (run qs st).
Proof.
  revert st. induction qs as [|q qs IH]; intros st; simpl; [reflexivity|].
  etrans; [apply step_extends | apply IH].
Qed.

Lemma initial_registry_inv : registry_inv initial_state.
Proof.
  split; [|split; [|split]]; simpl.
  - intros m. rewrite !elem_of_cons, elem_of_nil.
    destruct (decide (m = lit "arxiv")) as [->|Ha]; [by split; eauto|].
    destruct (decide (m = lit "local")) as [->|Hl]; [by split; eauto|].
    rewrite lookup_insert_ne, lookup_singleton_ne by done.
    split; [by intros [? ?]|tauto].
  - intros m o H. exfalso.
    destruct (decide (m = lit "arxiv")) as [->|Ha]; [by vm_compute in H|].
    destruct (decide (m = lit "local")) as [->|Hl]; [by vm_compute in H|].
    by rewrite lookup_insert_ne, lookup_singleton_ne in H.
  - intros o H. by apply elem_of_nil in H.
  - constructor.
Qed.

Lemma reachable_registry_inv qs : registry_inv (run qs initial_state).
Proof. apply (run_extends qs initial_state), initial_registry_inv. Qed.

(** C8. The pipeline registry is a memoizing factory.  In every state the
    process can reach and for each of the modes arxiv and local,
    [get_orchestrator] returns an instance.  If none was stored for the mode,
    the call constructs one new instance and stores it; if one was stored,
    the call returns it and changes nothing.  The entry of the other mode is
    not touched.  From then on, whatever requests are served in between,
    every call for the mode returns that same instance without constructing
    another, and no two instances constructed during the life of the process
    have the same mode. *)
Theorem registry_memoizes qs mode :
  mode ∈ [lit "arxiv"; lit "local"] →
  let st := run qs initial_state in
  ∃ o st1,
    get_orchestrator mode st = (Ok (Some o), st1) ∧
    (orchestrators st !! mode = Some None →
       (o ∉ instances st) ∧ handle_mode o = mode ∧
       instances st1 = instances st ++ [o] ∧
       orchestrators st1 = <[mode := Some o]> (orchestrators st)) ∧
    ((orchestrators st !! mode) ≠ Some None →
       orchestrators st !! mode = Some (Some o) ∧ st1 = st) ∧
    (∀ m, m ≠ mode → orchestrators st1 !! m = orchestrators st !! m) ∧
    (∀ qs', let st2 := run qs' st1 in
            get_orchestrator mode st2 = (Ok (Some o), st2)) ∧
    (∀ qs' i j oi oj,
       instances (run qs' st1) !! i = Some oi →
       instances (run qs' st1) !! j = Some oj →
       handle_mode oi = handle_mode oj → i = j).
Proof.
  intros Hmode st.
  pose proof (reachable_registry_inv qs) as Hinv. change (registry_inv st) in Hinv.
  pose proof (get_orchestrator_extends mode st) as (Hinv1 & _ & _).
  specialize (Hinv1 Hinv).
  destruct Hinv as (Hkeys & Hstored & Hmade & Hnodup).
  assert (∃ o st1, get_orchestrator mode st = (Ok (Some o), st1) ∧
            orchestrators st1 !! mode = Some (Some o) ∧
            (orchestrators st !! mode = Some None →
               (o ∉ instances st) ∧ handle_mode o = mode ∧
               instances st1 = instances st ++ [o] ∧
               orchestrators st1 = <[mode := Some o]> (orchestrators st)) ∧
            ((orchestrators st !! mode) ≠ Some None →
               orchestrators st !! mode = Some (Some o) ∧ st1 = st) ∧
            (∀ m, m ≠ mode → orchestrators st1 !! m = orchestrators st !! m))
    as (o & st1 & Hget & Hentry & Hfirst & Hlater & Hother).
  { destruct (orchestrators st !! mode) as [[o|]|] eqn:E.
    - exists o, st. rewrite (get_orchestrator_stored _ _ _ E).
      repeat split; try done.
    - eexists _, _. rewrite (get_orchestrator_first _ _ E).
      split; [reflexivity|]. simpl. split; [by rewrite lookup_insert_eq|].
      split; [|split; [done|]].
      + intros _. split; [|done].
        intros Hin. apply Hmade in Hin. simpl in Hin. congruence.
      + intros m Hne. by rewrite lookup_insert_ne.
    - destruct (proj2 (Hkeys mode) Hmode) as [x Hx]. congruence. }
  rewrite Hget in Hinv1. simpl in Hinv1.
  exists o, st1. split; [done|]. split; [done|]. split; [done|]. split; [done|].
  split.
  - intros qs' st2. apply get_orchestrator_stored.
    by apply (run_extends qs' st1).
  - intros qs' i j oi oj Hi Hj Heq.
    pose proof (run_extends qs' st1) as (Hinv2 & _ & _).
    destruct (Hinv2 Hinv1) as (_ & _ & _ & Hnd).
    eapply NoDup_lookup; [exact Hnd| |].
    + rewrite list_lookup_fmap, Hi. reflexivity.
    + rewrite list_lookup_fmap, Hj. simpl. by rewrite Heq.
Qed.

Lemma registry_memoizes_witness :
  let st := run [] initial_state in
  ∃ o st1,
    get_orchestrator (lit "local") st = (Ok (Some o), st1) ∧
    (orchestrators st !! lit "local" = Some None →
       (o ∉ instances st) ∧ handle_mode o = lit "local" ∧
       instances st1 = instances st ++ [o] ∧
       orchestrators st1 = <[lit "local" := Some o]> (orchestrators st)) ∧
    ((orchestrators st !! lit "local") ≠ Some None →
       orchestrators st !! lit "local" = Some (Some o) ∧ st1 = st) ∧
    (∀ m, m ≠ lit "local" → orchestrators st1 !! m = orchestrators st !! m) ∧
    (∀ qs', let st2 := run qs' st1 in
            get_orchestrator (lit "local") st2 = (Ok (Some o), st2)) ∧
    (∀ qs' i j oi oj,
       instances (run qs' st1) !! i = Some oi →
       instances (run qs' st1) !! j = Some oj →
       handle_mode oi = handle_mode oj → i = j).
Proof.
  apply (registry_memoizes [] (lit "local")).
  apply (bool_decide_unpack _). vm_compute. exact I.
Defined.

(** ** A summary request with an unknown mode *)

(** C9. Summarize does not validate its mode.  In every state the process
    can reach, a request that addresses an existing session and a paper in
    range but names a mode other than arxiv and local fails while resolving
    the pipeline: the registry lookup raises [KeyError(mode)], which the
    handler turns into a 500 whose detail is the text of that error, not
    into the 400 [invalid_mode]; the state is returned as it was. *)
Theorem summary_unknown_mode_is_500 qs w request results paper :
  let st := run qs initial_state in
  locate_paper request st = (Ok (results, paper), st) →
  summary_mode request ∉ [lit "arxiv"; lit "local"] →
  generate_summary w request st =
    (Raise (HTTPException 500 (StrOf (KeyError (VStr (summary_mode request))))), st) ∧
  HTTPException 500 (StrOf (KeyError (VStr (summary_mode request)))) ≠ invalid_mode.
Proof.
  intros st Hloc Hmode. split; [|discriminate].
  pose proof (reachable_registry_inv qs) as Hinv. change (registry_inv st) in Hinv.
  destruct Hinv as (Hkeys & _).
  assert (orchestrators st !! summary_mode request = None) as Hnone.
  { apply eq_None_not_Some. intros Hsome. by apply Hmode, Hkeys. }
  rewrite (generate_summary_located _ _ _ _ _ Hloc).
  apply try_except_exn. unfold summarize_paper.
  apply bind_raise. by apply get_orchestrator_unknown.
Qed.

Lemma summary_unknown_mode_is_500_witness :
  let request :=
    {| summary_mode := lit "telnet"; paper_index := 1; session_id := demo_sid |} in
  let st := run [Search demo_world demo_search] initial_state in
  generate_summary demo_world request st =
    (Raise (HTTPException 500 (StrOf (KeyError (VStr (summary_mode request))))), st) ∧
  HTTPException 500 (StrOf (KeyError (VStr (summary_mode request)))) ≠ invalid_mode.
Proof.
  apply (summary_unknown_mode_is_500 [Search demo_world demo_search] demo_world
           {| summary_mode := lit "telnet"; paper_index := 1; session_id := demo_sid |}
           (VRef 1) (VRef 3)).
  - vm_compute. reflexivity.
  - apply (proj1 (bool_decide_eq_false _)). vm_compute. reflexivity.
Defined.

(** ** What a successful summary request did *)

Lemma setitem_ok x k v st u st' :
  setitem x k v st = (Ok u, st') →
  ∃ l d, x = VRef l ∧ heap st !! l = Some (ODict d) ∧
         st' = State (orchestrators st) (sessions st)
                     (<[l := ODict (<[k := v]> d)]> (heap st))
                     (instances st) (invoked st).
Proof.
  unfold setitem, py_setitem_str.
  destruct x as [ | | | | |l]; try discriminate.
  destruct (heap st !! l) as [[xs|d]|] eqn:E; try discriminate.
  intros [= <-]. eauto.
Qed.

Lemma summarize_paper_ok w request results paper st resp st' :
  summarize_paper w request results paper st = (Ok resp, st') →
  ∃ o st1 summary allocated l d,
    get_orchestrator (summary_mode request) st = (Ok (Some o), st1) ∧
    pipeline_generate_summary w o paper = Returns summary allocated ∧
    py_bool (heap st ∪ allocated) (Val summary) = Return true ∧
    paper = VRef l ∧
    (heap st ∪ allocated) !! l = Some (ODict d) ∧
    st' = State (orchestrators st1)
                (<[session_id request := results]> (sessions st))
                (<[l := ODict (<[lit "summary" := summary]> d)]> (heap st ∪ allocated))
                (instances st1) (invoked st ++ [GenerateSummary o paper]).
Proof.
  unfold summarize_paper. intros H.
  apply bind_ok in H as (orchestrator & st1 & Hget & H).
  destruct (get_orchestrator_ok _ _ _ _ Hget) as (o & -> & _ & Hs1 & Hh1 & Hi1).
  apply bind_ok in H as (summary & st2 & Hcall & H).
  apply call_ok in Hcall as (allocated & Hsum & ->).
  apply bind_ok in H as (nonempty & st3 & Hbool & H).
  apply eval_ok in Hbool as [Hbool ->]. simpl in Hbool.
  destruct nonempty; [|by apply raise_not_ok in H].
  cbv iota beta delta [negb] in H.
  apply bind_ok in H as ([] & st4 & Hset & H).
  apply setitem_ok in Hset as (l & d & -> & Hl & ->). simpl in Hl.
  apply bind_ok in H as ([] & st5 & Hstore & H). injection Hstore as <-.
  repeat (apply bind_ok in H as (? & ? & [_ ->]%eval_ok & H)).
  injection H as <- <-. simpl.
  exists o, st1, summary, allocated, l, d.
  rewrite Hs1, Hh1, Hi1 in *. by repeat split.
Qed.

Lemma summary_key_is_not_papers : lit "summary" ≠ lit "top_5_papers".
Proof. discriminate. Qed.

(** Reading the addressed paper again after its summary was written finds
    the same paper. *)
Lemma locate_paper_after_write request st results l d v st' :
  locate_paper request st = (Ok (results, VRef l), st) →
  sessions st' = sessions st →
  (∀ l' x, l' ≠ l → heap st !! l' = Some x → heap st' !! l' = Some x) →
  (∀ x, heap st !! l = Some x → x = ODict d) →
  heap st' !! l = Some (ODict (<[lit "summary" := v]> d)) →
  locate_paper request st' = (Ok (results, VRef l), st').
Proof.
  intros Hloc Hsessions Hother Hsame Hnew.
  apply locate_paper_ok in Hloc
    as (_ & Hsome & Hrange & papers & count & Hp & Hc & Hle & Hi).
  apply py_get_return in Hp as (dr & Hshape & ->).
  assert (shape_of (heap st') (from_option Val (Fresh (OList [])) (dr !! lit "top_5_papers"))
          = shape_of (heap st) (from_option Val (Fresh (OList [])) (dr !! lit "top_5_papers")))
    as Hpapers.
  { destruct (dr !! lit "top_5_papers") as [[ | | | | |lp]|]; simpl; try done.
    destruct (heap st !! lp) as [x|] eqn:Hlp.
    - destruct (decide (lp = l)) as [->|Hne].
      + pose proof (Hsame _ Hlp) as ->.
        unfold py_getitem_int in Hi. simpl in Hi.
        rewrite Hlp in Hi. discriminate.
      + by rewrite (Hother _ _ Hne Hlp).
    - unfold py_len in Hc. simpl in Hc. by rewrite Hlp in Hc. }
  apply (locate_paper_run request st' results
           (from_option Val (Fresh (OList [])) (dr !! lit "top_5_papers")) count);
    rewrite ?Hsessions; try done.
  - destruct results as [ | | | | |lr]; try discriminate.
    simpl in Hshape. unfold py_get. simpl.
    destruct (heap st !! lr) as [x|] eqn:Hlr; [|discriminate].
    injection Hshape as Hshape.
    destruct (decide (lr = l)) as [->|Hne].
    + pose proof (Hsame _ Hlr) as ->. simpl in Hshape. injection Hshape as <-.
      rewrite Hnew. simpl.
      by rewrite (lookup_insert_ne _ _ _ _ summary_key_is_not_papers).
    + rewrite (Hother _ _ Hne Hlr). simpl. by rewrite Hshape.
  - unfold py_len. rewrite Hpapers. exact Hc.
  - unfold py_getitem_int. rewrite Hpapers. exact Hi.
Qed.

Lemma generate_summary_ok w request st resp st' :
  generate_summary w request st = (Ok resp, st') →
  ∃ results l d o st1 summary allocated,
    locate_paper request st = (Ok (results, VRef l), st) ∧
    get_orchestrator (summary_mode request) st = (Ok (Some o), st1) ∧
    pipeline_generate_summary w o (VRef l) = Returns summary allocated ∧
    py_bool (heap st ∪ allocated) (Val summary) = Return true ∧
    (heap st ∪ allocated) !! l = Some (ODict d) ∧
    st' = State (orchestrators st1) (sessions st)
                (<[l := ODict (<[lit "summary" := summary]> d)]> (heap st ∪ allocated))
                (instances st1) (invoked st ++ [GenerateSummary o (VRef l)]).
Proof.
  intros H. apply try_except_ok in H.
  apply bind_ok in H as ([results paper] & st0 & Hloc & H). simpl in H.
  destruct (locate_paper_ok _ _ _ _ _ Hloc) as (-> & Hsome & _).
  apply summarize_paper_ok in H
    as (o & st1 & summary & allocated & l & d & Hget & Hsum & Hbool & -> & Hl & ->).
  exists results, l, d, o, st1, summary, allocated.
  rewrite (insert_id _ _ _ Hsome). by repeat split.
Qed.

(** C7. A successful summary request writes one thing into the sessions:
    the [summary] key of the paper object at position [paper_index - 1] of
    the session's paper list is set to the summary the summarizer returned,
    replacing whatever was stored under that key.  Every other key of that
    paper, every other object of the heap (every other paper, every
    ResultSet) and every binding of the session store are as they were, and
    the written summary is what the session shows when the paper is looked
    up again.  A second successful request for the same session and index
    finds the same paper and leaves it as the first call found it except for
    the summary, which is now the second one.  (Outside the sessions, the
    call resolves the pipeline of the request's mode through the registry,
    whose memoization is the subject of C8.) *)
Theorem summary_writes_only_the_summary w request st resp st' :
  generate_summary w request st = (Ok resp, st') →
  ∃ results l d o summary allocated,
    locate_paper request st = (Ok (results, VRef l), st) ∧
    orchestrators st' !! summary_mode request = Some (Some o) ∧
    registry_extends st st' ∧
    pipeline_generate_summary w o (VRef l) = Returns summary allocated ∧
    (heap st ∪ allocated) !! l = Some (ODict d) ∧
    (∀ x, heap st !! l = Some x → x = ODict d) ∧
    heap st' = <[l := ODict (<[lit "summary" := summary]> d)]> (heap st ∪ allocated) ∧
    sessions st' = sessions st ∧
    (∀ l' x, l' ≠ l → heap st !! l' = Some x → heap st' !! l' = Some x) ∧
    (∃ d', heap st' !! l = Some (ODict d') ∧
           d' !! lit "summary" = Some summary ∧
           ∀ k, k ≠ lit "summary" → d' !! k = d !! k) ∧
    locate_paper request st' = (Ok (results, VRef l), st') ∧
    ∀ w2 resp2 st'',
      generate_summary w2 request st' = (Ok resp2, st'') →
      ∃ o2 summary2 allocated2,
        pipeline_generate_summary w2 o2 (VRef l) = Returns summary2 allocated2 ∧
        heap st'' = <[l := ODict (<[lit "summary" := summary2]> d)]>
                      (heap st ∪ allocated ∪ allocated2) ∧
        sessions st'' = sessions st.
Proof.
  intros H. apply generate_summary_ok in H
    as (results & l & d & o & st1 & summary & allocated
        & Hloc & Hget & Hsum & Hbool & Hl & ->).
  assert (∀ x, heap st !! l = Some x → x = ODict d) as Hsame.
  { intros x Hx. apply (lookup_union_Some_l _ allocated) in Hx. congruence. }
  assert (∀ l' x, l' ≠ l → heap st !! l' = Some x →
            (<[l := ODict (<[lit "summary" := summary]> d)]> (heap st ∪ allocated)) !! l'
            = Some x) as Hother.
  { intros l' x Hne Hx. rewrite lookup_insert_ne by done.
    by apply lookup_union_Some_l. }
  set (st' := State (orchestrators st1) (sessions st)
                (<[l := ODict (<[lit "summary" := summary]> d)]> (heap st ∪ allocated))
                (instances st1) (invoked st ++ [GenerateSummary o (VRef l)])).
  assert (locate_paper request st' = (Ok (results, VRef l), st')) as Hloc'.
  { apply (locate_paper_after_write request st results l d summary st'); try done.
    simpl. by rewrite lookup_insert_eq. }
  exists results, l, d, o, summary, allocated.
  split; [done|].
  split; [by destruct (get_orchestrator_ok _ _ _ _ Hget) as (? & [= <-] & ? & _)|].
  split.
  { pose proof (get_orchestrator_extends (summary_mode request) st) as Hext.
    rewrite Hget in Hext. simpl in Hext.
    etrans; [exact Hext|]. by apply registry_extends_same. }
  split; [done|]. split; [done|]. split; [done|].
  split; [done|]. split; [done|]. split; [done|]. split; [|split; [done|]].
  - exists (<[lit "summary" := summary]> d). simpl.
    rewrite !lookup_insert_eq. split; [done|]. split; [done|].
    intros k Hk. by rewrite lookup_insert_ne.
  - intros w2 resp2 st'' H2. apply generate_summary_ok in H2
      as (results2 & l2 & d2 & o2 & st2 & summary2 & allocated2
          & Hloc2 & _ & Hsum2 & _ & Hl2 & ->).
    rewrite Hloc' in Hloc2. injection Hloc2 as <- <-.
    simpl in Hl2. rewrite <- insert_union_l in Hl2.
    rewrite lookup_insert_eq in Hl2. injection Hl2 as <-.
    exists o2, summary2, allocated2. split; [done|]. simpl. split; [|done].
    by rewrite <- insert_union_l, !insert_insert_eq.
Qed.

Lemma summary_writes_only_the_summary_witness :
  ∃ results l d o summary allocated,
    locate_paper (demo_summary 2) demo_state = (Ok (results, VRef l), demo_state) ∧
    orchestrators demo_summarized !! summary_mode (demo_summary 2) = Some (Some o) ∧
    registry_extends demo_state demo_summarized ∧
    pipeline_generate_summary demo_world o (VRef l) = Returns summary allocated ∧
    (heap demo_state ∪ allocated) !! l = Some (ODict d) ∧
    (∀ x, heap demo_state !! l = Some x → x = ODict d) ∧
    heap demo_summarized =
      <[l := ODict (<[lit "summary" := summary]> d)]> (heap demo_state ∪ allocated) ∧
    sessions demo_summarized = sessions demo_state ∧
    (∀ l' x, l' ≠ l → heap demo_state !! l' = Some x →
             heap demo_summarized !! l' = Some x) ∧
    (∃ d', heap demo_summarized !! l = Some (ODict d') ∧
           d' !! lit "summary" = Some summary ∧
           ∀ k, k ≠ lit "summary" → d' !! k = d !! k) ∧
    locate_paper (demo_summary 2) demo_summarized
      = (Ok (results, VRef l), demo_summarized) ∧
    ∀ w2 resp2 st'',
      generate_summary w2 (demo_summary 2) demo_summarized = (Ok resp2, st'') →
      ∃ o2 summary2 allocated2,
        pipeline_generate_summary w2 o2 (VRef l) = Returns summary2 allocated2 ∧
        heap st'' = <[l := ODict (<[lit "summary" := summary2]> d)]>
                      (heap demo_state ∪ allocated ∪ allocated2) ∧
        sessions st'' = sessions demo_state.
Proof.
  apply (summary_writes_only_the_summary demo_world (demo_summary 2) demo_state
           demo_summary_response demo_summarized).
  vm_compute. reflexivity.
Defined.

(** ** Collaborator results are judged by truthiness *)

Lemma empty_mapping_is_falsy h l :
  h !! l = Some (ODict ∅) → py_bool h (Val (VRef l)) = Return false.
Proof. unfold py_bool. simpl. by intros ->. Qed.

(** C10. A collaborator result that is present but empty counts as a
    failure.  When [run_pipeline] returns an empty mapping the search answers
    500 [search_failed] and stores no session; when the summarizer returns an
    empty mapping the summary request answers 500 [summary_failed] and
    writes nothing, objects that existed before the call being untouched.
    In both cases the answer and the final state are those of a collaborator
    that returned [None] after allocating the same objects. *)
Theorem empty_result_counts_as_failure w o l allocated :
  (∀ request st st1,
     (50 ≤ length (search_abstract request))%nat →
     search_mode request ∈ [lit "arxiv"; lit "local"] →
     get_orchestrator (search_mode request) st = (Ok (Some o), st1) →
     run_pipeline w o (search_abstract request) = Returns (VRef l) allocated →
     (heap st ∪ allocated) !! l = Some (ODict ∅) →
     ∃ st', search_papers w request st = (Raise search_failed, st') ∧
            sessions st' = sessions st ∧
            ∀ w', run_pipeline w' o (search_abstract request) = Returns VNone allocated →
                  search_papers w' request st = (Raise search_failed, st')) ∧
  (∀ request st st1 results paper,
     locate_paper request st = (Ok (results, paper), st) →
     get_orchestrator (summary_mode request) st = (Ok (Some o), st1) →
     pipeline_generate_summary w o paper = Returns (VRef l) allocated →
     (heap st ∪ allocated) !! l = Some (ODict ∅) →
     ∃ st', generate_summary w request st = (Raise summary_failed, st') ∧
            sessions st' = sessions st ∧
            (∀ l' x, heap st !! l' = Some x → heap st' !! l' = Some x) ∧
            ∀ w', pipeline_generate_summary w' o paper = Returns VNone allocated →
                  generate_summary w' request st = (Raise summary_failed, st')).
Proof.
  split.
  - intros request st st1 Hlen Hmode Hget Hrun Hempty.
    eexists. split; [|split].
    + eapply search_papers_falsy; [done..|]. by apply empty_mapping_is_falsy.
    + done.
    + intros w' Hnone. by eapply search_papers_falsy.
  - intros request st st1 results paper Hloc Hget Hsum Hempty.
    eexists. split; [|split; [|split]].
    + rewrite (generate_summary_located _ _ _ _ _ Hloc). apply try_except_http.
      eapply summarize_paper_falsy; [done..|]. by apply empty_mapping_is_falsy.
    + done.
    + simpl. intros l' x Hx. by apply lookup_union_Some_l.
    + intros w' Hnone.
      rewrite (generate_summary_located _ _ _ _ _ Hloc). apply try_except_http.
      by eapply summarize_paper_falsy.
Qed.

Lemma empty_result_counts_as_failure_witness :
  (∃ st', search_papers empty_world demo_search demo_state = (Raise search_failed, st') ∧
          sessions st' = sessions demo_state ∧
          ∀ w', run_pipeline w' (Handle 0 (lit "arxiv")) (search_abstract demo_search)
                  = Returns VNone {[ 7%positive := ODict ∅ ]} →
                search_papers w' demo_search demo_state = (Raise search_failed, st')) ∧
  (∃ st', generate_summary empty_world (demo_summary 1) demo_state
            = (Raise summary_failed, st') ∧
          sessions st' = sessions demo_state ∧
          (∀ l' x, heap demo_state !! l' = Some x → heap st' !! l' = Some x) ∧
          ∀ w', pipeline_generate_summary w' (Handle 0 (lit "arxiv")) (VRef 3)
                  = Returns VNone {[ 7%positive := ODict ∅ ]} →
                generate_summary w' (demo_summary 1) demo_state
                  = (Raise summary_failed, st')).
Proof.
  split.
  - apply (proj1 (empty_result_counts_as_failure empty_world (Handle 0 (lit "arxiv"))
                    7%positive {[ 7%positive := ODict ∅ ]})
             demo_search demo_state demo_state).
    + simpl. lia.
    + apply (bool_decide_unpack _). vm_compute. exact I.
    + vm_compute. reflexivity.
    + reflexivity.
    + vm_compute. reflexivity.
  - apply (proj2 (empty_result_counts_as_failure empty_world (Handle 0 (lit "arxiv"))
                    7%positive {[ 7%positive := ODict ∅ ]})
             (demo_summary 1) demo_state demo_state (VRef 1) (VRef 3)).
    + vm_compute. reflexivity.
    + vm_compute. reflexivity.
    + reflexivity.
    + vm_compute. reflexivity.
Defined.

(** * Further properties of the handlers *)

(** ** The statuses a handler can answer with *)



















(** ** A search whose pipeline raises *)




(** ** The session is stored before the response is built *)

Lemma py_get_of_dict h r d k dflt :
  shape_of h r = Return (SDict d) →
  py_get h r k dflt = Return (from_option Val dflt (d !! k)).
Proof. unfold py_get. by intros ->. Qed.

(** Whether [x.get] raises, and what, does not depend on the key. *)
Lemma py_get_throws_alike h r k1 d1 k2 d2 e :
  py_get h r k1 d1 = Throw e → py_get h r k2 d2 = Throw e.
Proof.
  unfold py_get. destruct (shape_of h r) as [s|e0]; simpl; [|done].
  by destruct s.
Qed.

Lemma format_top_5_throws_early h results e k dflt :
  (∀ d, shape_of h (Val results) ≠ Return (SDict d)) →
  format_top_5 h results = Throw e →
  py_get h (Val results) k dflt = Throw e.
Proof.
  intros Hnot. unfold format_top_5.
  destruct (py_get h (Val results) (lit "top_5_papers") (Fresh (OList []))) as [x|e0] eqn:E.
  - apply py_get_return in E as (d & Hd & _). by destruct (Hnot d).
  - simpl. intros [= <-]. by eapply py_get_throws_alike.
Qed.

Lemma comparative_analysis_of_dict h results d :
  shape_of h (Val results) = Return (SDict d) →
  comparative_analysis h results = Return (d !! lit "comparative_analysis").
Proof.
  intros Hd. unfold comparative_analysis, py_contains_str, py_getitem_str.
  rewrite Hd. simpl.
  destruct (d !! lit "comparative_analysis") as [v|] eqn:E.
  - rewrite bool_decide_eq_true_2 by eauto. done.
  - rewrite bool_decide_eq_false_2 by (by intros [? ?]). done.
Qed.

Lemma sessions_setitem_run sid results st :
  sessions_setitem sid results st =
    (Ok (), State (orchestrators st) (<[sid := results]> (sessions st)) (heap st)
                  (instances st) (invoked st)).
Proof. reflexivity. Qed.

(** The search up to the assignment [sessions[session_id] = results]. *)
Lemma search_papers_stored w request st o st1 results allocated :
  (50 ≤ length (search_abstract request))%nat →
  search_mode request ∈ [lit "arxiv"; lit "local"] →
  get_orchestrator (search_mode request) st = (Ok (Some o), st1) →
  run_pipeline w o (search_abstract request) = Returns results allocated →
  py_bool (heap st ∪ allocated) (Val results) = Return true →
  let sid := search_mode request ++ lit "_" ++ strftime (now w) in
  let st2 := State (orchestrators st1) (<[sid := results]> (sessions st))
                   (heap st ∪ allocated) (instances st1)
                   (invoked st ++ [RunPipeline o (search_abstract request)]) in
  (∀ e, format_top_5 (heap st ∪ allocated) results = Throw e →
        search_papers w request st = (Raise (HTTPException 500 (StrOf e)), st2)) ∧
  (∀ d entries,
     shape_of (heap st ∪ allocated) (Val results) = Return (SDict d) →
     format_top_5 (heap st ∪ allocated) results = Return entries →
     search_papers w request st =
       (Ok {| resp_session_id := sid;
              resp_mode := search_mode request;
              resp_query_abstract := search_abstract request;
              resp_timestamp := from_option Val (Val VNone) (d !! lit "query_timestamp");
              resp_keywords := from_option Val (Fresh (OList [])) (d !! lit "keywords");
              resp_metrics := from_option Val (Fresh (ODict ∅)) (d !! lit "metrics");
              resp_top_5_papers := entries;
              resp_comparative_analysis := d !! lit "comparative_analysis" |},
        st2)).
Proof.
  intros Hlen Hmode Hget Hrun Htruthy sid st2.
  destruct (get_orchestrator_ok _ _ _ _ Hget) as (? & [= <-] & _ & Hs1 & Hh1 & Hi1).
  assert (∀ (r : result search_response),
    ((eval (λ h, py_get h (Val results) (lit "query_timestamp") (Val VNone)) ≫= λ timestamp,
      eval (λ h, py_get h (Val results) (lit "keywords") (Fresh (OList []))) ≫= λ keywords,
      eval (λ h, py_get h (Val results) (lit "metrics") (Fresh (ODict ∅))) ≫= λ metrics,
      eval (λ h, format_top_5 h results) ≫= λ top,
      eval (λ h, comparative_analysis h results) ≫= λ analysis,
      mret {| resp_session_id := sid;
              resp_mode := search_mode request;
              resp_query_abstract := search_abstract request;
              resp_timestamp := timestamp;
              resp_keywords := keywords;
              resp_metrics := metrics;
              resp_top_5_papers := top;
              resp_comparative_analysis := analysis |}) st2 = (r, st2)) →
    search_papers w request st =
      (match r with
       | Raise (Exn e) => Raise (HTTPException 500 (StrOf e))
       | _ => r
       end, st2)) as Hrest.
  { intros r Hr. unfold search_papers, try_except.
    rewrite bool_decide_eq_false_2 by lia.
    rewrite (bool_decide_eq_true_2 _ Hmode). cbv iota beta delta [negb].
    rewrite (bind_step _ _ _ _ _ Hget).
    rewrite (bind_step _ _ _ _ _ (call_run_pipeline_returns _ _ _ _ _ _ Hrun)).
    rewrite Hs1, Hh1, Hi1.
    erewrite bind_step; [|apply eval_return; simpl; exact Htruthy].
    cbv iota beta delta [negb].
    cbv zeta. rewrite (bind_step _ _ _ _ _ (sessions_setitem_run _ _ _)).
    cbn [orchestrators sessions heap instances invoked]. fold sid. fold st2.
    rewrite Hr. by destruct r as [|[|]]. }
  split.
  - intros e Hthrow. apply (Hrest (Raise (Exn e))).
    destruct (shape_of (heap st ∪ allocated) (Val results)) as [s|e0] eqn:Hshape.
    + assert ((∃ d, s = SDict d) ∨ ¬ (∃ d, s = SDict d)) as [[d ->]|Hnot]
        by (destruct s; eauto; right; intros [? ?]; discriminate).
      * rewrite (bind_step _ _ _ _ _ (eval_return _ st2 _ (py_get_of_dict _ _ _ _ _ Hshape))).
        rewrite (bind_step _ _ _ _ _ (eval_return _ st2 _ (py_get_of_dict _ _ _ _ _ Hshape))).
        rewrite (bind_step _ _ _ _ _ (eval_return _ st2 _ (py_get_of_dict _ _ _ _ _ Hshape))).
        apply bind_raise. unfold eval. simpl. by rewrite Hthrow.
      * apply bind_raise. unfold eval. simpl.
        erewrite format_top_5_throws_early; [done| |exact Hthrow].
        intros d Hd. rewrite Hshape in Hd. injection Hd as ->. apply Hnot. eauto.
    + apply bind_raise. unfold eval. simpl.
      erewrite format_top_5_throws_early; [done| |exact Hthrow].
      intros d Hd. by rewrite Hshape in Hd.
  - intros d entries Hshape Htop.
    apply (Hrest (Ok _)).
    rewrite (bind_step _ _ _ _ _ (eval_return _ st2 _ (py_get_of_dict _ _ _ _ _ Hshape))).
    rewrite (bind_step _ _ _ _ _ (eval_return _ st2 _ (py_get_of_dict _ _ _ _ _ Hshape))).
    rewrite (bind_step _ _ _ _ _ (eval_return _ st2 _ (py_get_of_dict _ _ _ _ _ Hshape))).
    rewrite (bind_step _ _ _ _ _ (eval_return (λ h, format_top_5 h results) st2 _ Htop)).
    rewrite (bind_step _ _ _ _ _
               (eval_return (λ h, comparative_analysis h results) st2 _
                  (comparative_analysis_of_dict _ _ _ Hshape))).
    reflexivity.
Qed.

(** X4. The session is stored before the response is built: when a
    validated search gets a truthy result from the pipeline but formatting
    the paper list raises (a ResultSet that is not a dict, a paper that is
    not a dict, an abstract that is not a string), the search answers 500
    with the text of that exception and the session is in the store all the
    same, under the identifier the response would have carried. *)
Theorem search_session_outlives_failure w request st o st1 results allocated e :
  (50 ≤ length (search_abstract request))%nat →
  search_mode request ∈ [lit "arxiv"; lit "local"] →
  get_orchestrator (search_mode request) st = (Ok (Some o), st1) →
  run_pipeline w o (search_abstract request) = Returns results allocated →
  py_bool (heap st ∪ allocated) (Val results) = Return true →
  format_top_5 (heap st ∪ allocated) results = Throw e →
  let sid := search_mode request ++ lit "_" ++ strftime (now w) in
  ∃ st', search_papers w request st = (Raise (HTTPException 500 (StrOf e)), st') ∧
         sessions st' = <[sid := results]> (sessions st) ∧
         get_session sid st' = (Ok results, st').
Proof.
  intros Hlen Hmode Hget Hrun Htruthy Hthrow sid.
  destruct (search_papers_stored _ _ _ _ _ _ _ Hlen Hmode Hget Hrun Htruthy) as [Hfail _].
  eexists. split; [by apply Hfail|]. split; [done|].
  unfold get_session. simpl. fold sid. by rewrite lookup_insert_eq.
Qed.

Lemma search_session_outlives_failure_witness :
  let sid := search_mode demo_search ++ lit "_" ++ strftime (now broken_world) in
  ∃ st', search_papers broken_world demo_search initial_state
           = (Raise (HTTPException 500 (StrOf TypeError)), st') ∧
         sessions st' = <[sid := VRef 11]> (sessions initial_state) ∧
         get_session sid st' = (Ok (VRef 11), st').
Proof.
  apply (search_session_outlives_failure broken_world demo_search initial_state
           (Handle 0 (lit "arxiv")) (get_orchestrator (lit "arxiv") initial_state).2
           (VRef 11) broken_objects TypeError).
  - simpl. lia.
  - apply (bool_decide_unpack _). vm_compute. exact I.
  - vm_compute. reflexivity.
  - reflexivity.
  - vm_compute. reflexivity.
  - vm_compute. reflexivity.
Defined.

(** ** What the response of a search carries *)

(** X5. The response of a successful search echoes the request's mode and
    abstract, carries the ResultSet's [query_timestamp], [keywords] and
    [metrics] (with [None], an empty list and an empty dict where the
    ResultSet lacks the key), and has a [comparative_analysis] exactly when
    the ResultSet has that key, with its value. *)
Theorem search_response_fields w request st resp st' :
  search_papers w request st = (Ok resp, st') →
  ∃ o results allocated d,
    run_pipeline w o (search_abstract request) = Returns results allocated ∧
    shape_of (heap st') (Val results) = Return (SDict d) ∧
    resp_mode resp = search_mode request ∧
    resp_query_abstract resp = search_abstract request ∧
    resp_timestamp resp = from_option Val (Val VNone) (d !! lit "query_timestamp") ∧
    resp_keywords resp = from_option Val (Fresh (OList [])) (d !! lit "keywords") ∧
    resp_metrics resp = from_option Val (Fresh (ODict ∅)) (d !! lit "metrics") ∧
    resp_comparative_analysis resp = d !! lit "comparative_analysis".
Proof.
  intros H. pose proof H as Hinv. apply search_papers_ok_inv in Hinv
    as (Hlen & Hmode & o & st1 & results & allocated
        & Hget & Hrun & Htruthy & -> & _ & _ & _ & Htop & _).
  simpl in Htop.
  assert (∃ d, shape_of (heap st ∪ allocated) (Val results) = Return (SDict d)) as [d Hd].
  { unfold format_top_5 in Htop.
    apply res_bind_return in Htop as (papers & (d & Hd & _)%py_get_return & _). eauto. }
  destruct (search_papers_stored _ _ _ _ _ _ _ Hlen Hmode Hget Hrun Htruthy) as [_ Hok].
  rewrite (Hok _ _ Hd Htop) in H. injection H as <-.
  exists o, results, allocated, d. by repeat split.
Qed.

Lemma search_response_fields_witness :
  ∃ o results allocated d,
    run_pipeline demo_world o (search_abstract demo_search) = Returns results allocated ∧
    shape_of (heap demo_state) (Val results) = Return (SDict d) ∧
    resp_mode demo_response = search_mode demo_search ∧
    resp_query_abstract demo_response = search_abstract demo_search ∧
    resp_timestamp demo_response = from_option Val (Val VNone) (d !! lit "query_timestamp") ∧
    resp_keywords demo_response = from_option Val (Fresh (OList [])) (d !! lit "keywords") ∧
    resp_metrics demo_response = from_option Val (Fresh (ODict ∅)) (d !! lit "metrics") ∧
    resp_comparative_analysis demo_response = d !! lit "comparative_analysis".
Proof.
  apply (search_response_fields demo_world demo_search initial_state).
  vm_compute. reflexivity.
Defined.

Lemma format_paper_copies h paper entry :
  format_paper h paper = Return entry → entry_copies h paper entry.
Proof.
  unfold format_paper. intros H.
  apply res_bind_return in H as (rank & (d1 & Hd & ->)%py_get_return & H).
  apply res_bind_return in H as (title & (d2 & Hd2 & ->)%py_get_return & H).
  apply res_bind_return in H as (authors & (d3 & Hd3 & ->)%py_get_return & H).
  apply res_bind_return in H as (year & (d4 & Hd4 & ->)%py_get_return & H).
  apply res_bind_return in H as (arxiv_id & (d5 & Hd5 & ->)%py_get_return & H).
  apply res_bind_return in H as (url & (d6 & Hd6 & ->)%py_get_return & H).
  apply res_bind_return in H as (similarity & (d7 & Hd7 & ->)%py_get_return & H).
  apply res_bind_return in H as (rerank & (d8 & Hd8 & ->)%py_get_return & H).
  apply res_bind_return in H as (source & _ & H).
  apply res_bind_return in H as (head & _ & H).
  apply res_bind_return in H as (abstract & _ & H).
  injection H as <-.
  assert (d2 = d1) as -> by congruence. assert (d3 = d1) as -> by congruence.
  assert (d4 = d1) as -> by congruence. assert (d5 = d1) as -> by congruence.
  assert (d6 = d1) as -> by congruence. assert (d7 = d1) as -> by congruence.
  assert (d8 = d1) as -> by congruence.
  exists d1. by repeat split.
Qed.

(** X6. When the ResultSet's [top_5_papers] is a list, the response of a
    successful search lists its first five papers (all of them when there
    are fewer), in the pipeline's order, each entry copying rank, title,
    authors, year, arxiv_id, url, similarity and rerank_score from its
    paper, with the source's defaults for missing keys; when the ResultSet
    has no [top_5_papers] the response lists no paper. *)
Theorem search_lists_first_five w request st resp st' :
  search_papers w request st = (Ok resp, st') →
  ∃ o results allocated d,
    run_pipeline w o (search_abstract request) = Returns results allocated ∧
    shape_of (heap st') (Val results) = Return (SDict d) ∧
    (d !! lit "top_5_papers" = None → resp_top_5_papers resp = []) ∧
    (∀ v xs,
       d !! lit "top_5_papers" = Some v →
       shape_of (heap st') (Val v) = Return (SList xs) →
       length (resp_top_5_papers resp) = (length xs `min` 5)%nat ∧
       Forall2 (entry_copies (heap st')) (take 5 xs) (resp_top_5_papers resp)).
Proof.
  intros H. apply search_papers_ok_inv in H
    as (_ & _ & o & st1 & results & allocated
        & _ & Hrun & _ & -> & _ & _ & _ & Htop & _).
  cbn [heap] in *. unfold format_top_5 in Htop.
  apply res_bind_return in Htop as (papers & (d & Hd & ->)%py_get_return & Htop).
  apply res_bind_return in Htop as (first & Hfirst & Htop).
  apply res_bind_return in Htop as (items & Hitems & Htop).
  apply mapM_res_Forall2 in Htop.
  exists o, results, allocated, d. split; [done|]. split; [done|]. split.
  - intros Hnone. rewrite Hnone in Hfirst. simpl in Hfirst.
    injection Hfirst as <-. simpl in Hitems. injection Hitems as <-.
    by inversion Htop.
  - intros v xs Hsome Hxs. rewrite Hsome in Hfirst. cbn [from_option] in Hfirst.
    unfold py_slice_to in Hfirst. rewrite Hxs in Hfirst. simpl in Hfirst.
    injection Hfirst as <-. simpl in Hitems. injection Hitems as <-.
    split.
    + rewrite <- (Forall2_length _ _ _ Htop), length_take. lia.
    + eapply Forall2_impl; [exact Htop|]. intros paper entry.
      apply format_paper_copies.
Qed.

Lemma search_lists_first_five_witness :
  ∃ o results allocated d,
    run_pipeline demo_world o (search_abstract demo_search) = Returns results allocated ∧
    shape_of (heap demo_state) (Val results) = Return (SDict d) ∧
    (d !! lit "top_5_papers" = None → resp_top_5_papers demo_response = []) ∧
    (∀ v xs,
       d !! lit "top_5_papers" = Some v →
       shape_of (heap demo_state) (Val v) = Return (SList xs) →
       length (resp_top_5_papers demo_response) = (length xs `min` 5)%nat ∧
       Forall2 (entry_copies (heap demo_state)) (take 5 xs)
               (resp_top_5_papers demo_response)).
Proof.
  apply (search_lists_first_five demo_world demo_search initial_state).
  vm_compute. reflexivity.
Defined.

(** ** Reading a session back *)

(** X7. After a successful search, [GET /api/session/{id}] with the
    identifier of the response returns the ResultSet the pipeline returned
    and leaves the state alone. *)
Theorem search_then_get_session w request st resp st' :
  search_papers w request st = (Ok resp, st') →
  ∃ o results allocated,
    run_pipeline w o (search_abstract request) = Returns results allocated ∧
    get_session (resp_session_id resp) st' = (Ok results, st').
Proof.
  intros H. apply search_papers_ok_inv in H
    as (_ & _ & o & st1 & results & allocated
        & _ & Hrun & _ & -> & -> & _).
  exists o, results, allocated. split; [done|].
  unfold get_session. simpl. by rewrite lookup_insert_eq.
Qed.

Lemma search_then_get_session_witness :
  ∃ o results allocated,
    run_pipeline demo_world o (search_abstract demo_search) = Returns results allocated ∧
    get_session (resp_session_id demo_response) demo_state = (Ok results, demo_state).
Proof.
  apply (search_then_get_session demo_world demo_search initial_state).
  vm_compute. reflexivity.
Defined.

(** ** A summary request whose summarizer raises *)




(** ** What the response of a summary request carries *)

Lemma summarize_paper_view w request results paper st resp st' :
  summarize_paper w request results paper st = (Ok resp, st') →
  ∃ o summary allocated,
    pipeline_generate_summary w o paper = Returns summary allocated ∧
    summary_view (heap st') paper summary resp.
Proof.
  unfold summarize_paper. intros H.
  apply bind_ok in H as (orchestrator & st1 & Hget & H).
  destruct (get_orchestrator_ok _ _ _ _ Hget) as (o & -> & _).
  apply bind_ok in H as (summary & st2 & Hcall & H).
  apply call_ok in Hcall as (allocated & Hsum & ->).
  apply bind_ok in H as (nonempty & st3 & [_ ->]%eval_ok & H).
  destruct nonempty; [|by apply raise_not_ok in H].
  cbv iota beta delta [negb] in H.
  apply bind_ok in H as ([] & st4 & Hset & H).
  apply setitem_ok in Hset as (l & d & -> & _ & ->).
  apply bind_ok in H as ([] & st5 & Hstore & H). injection Hstore as <-.
  apply bind_ok in H as (rank & ? & [(p1 & Hp & ->)%py_get_return ->]%eval_ok & H).
  apply bind_ok in H as (title & ? & [(p2 & Hp2 & ->)%py_get_return ->]%eval_ok & H).
  apply bind_ok in H as (authors & ? & [(p3 & Hp3 & ->)%py_get_return ->]%eval_ok & H).
  apply bind_ok in H as (year & ? & [(p4 & Hp4 & ->)%py_get_return ->]%eval_ok & H).
  apply bind_ok in H as (arxiv_id & ? & [(p5 & Hp5 & ->)%py_get_return ->]%eval_ok & H).
  apply bind_ok in H as (f1 & ? & [(s1 & Hs & ->)%py_get_return ->]%eval_ok & H).
  apply bind_ok in H as (f2 & ? & [(s2 & Hs2 & ->)%py_get_return ->]%eval_ok & H).
  apply bind_ok in H as (f3 & ? & [(s3 & Hs3 & ->)%py_get_return ->]%eval_ok & H).
  apply bind_ok in H as (f4 & ? & [(s4 & Hs4 & ->)%py_get_return ->]%eval_ok & H).
  apply bind_ok in H as (f5 & ? & [(s5 & Hs5 & ->)%py_get_return ->]%eval_ok & H).
  apply bind_ok in H as (f6 & ? & [(s6 & Hs6 & ->)%py_get_return ->]%eval_ok & H).
  injection H as <- <-.
  assert (p2 = p1) as -> by congruence. assert (p3 = p1) as -> by congruence.
  assert (p4 = p1) as -> by congruence. assert (p5 = p1) as -> by congruence.
  assert (s2 = s1) as -> by congruence. assert (s3 = s1) as -> by congruence.
  assert (s4 = s1) as -> by congruence. assert (s5 = s1) as -> by congruence.
  assert (s6 = s1) as -> by congruence.
  exists o, summary, allocated. split; [done|].
  exists p1, s1. by repeat split.
Qed.

(** X9. The response of a successful summary request carries rank, title,
    authors, year and arxiv_id of the addressed paper and the six fields of
    the summary the summarizer returned; a field the summary lacks is an
    empty string ([key_findings]: an empty list), a field the paper lacks is
    [None] ([authors]: an empty list). *)
Theorem summary_response_fields w request st resp st' :
  generate_summary w request st = (Ok resp, st') →
  ∃ results paper o summary allocated,
    locate_paper request st = (Ok (results, paper), st) ∧
    pipeline_generate_summary w o paper = Returns summary allocated ∧
    summary_view (heap st') paper summary resp.
Proof.
  intros H. apply try_except_ok in H.
  apply bind_ok in H as ([results paper] & st0 & Hloc & H). simpl in H.
  destruct (locate_paper_ok _ _ _ _ _ Hloc) as (-> & _).
  apply summarize_paper_view in H as (o & summary & allocated & Hsum & Hview).
  by exists results, paper, o, summary, allocated.
Qed.

Lemma summary_response_fields_witness :
  ∃ results paper o summary allocated,
    locate_paper (demo_summary 2) demo_state = (Ok (results, paper), demo_state) ∧
    pipeline_generate_summary demo_world o paper = Returns summary allocated ∧
    summary_view (heap demo_summarized) paper summary demo_summary_response.
Proof.
  apply (summary_response_fields demo_world (demo_summary 2) demo_state).
  vm_compute. reflexivity.
Defined.

(** ** Which pipeline summarizes *)

(** X10. The summarizer a summary request calls is the pipeline of the
    request's own [mode] field, whatever mode the session was created in:
    in every state the process can reach, a successful summary request made
    exactly one collaborator call, on an instance constructed for the
    request's mode. *)
Theorem summary_uses_request_mode qs w request resp st' :
  let st := run qs initial_state in
  generate_summary w request st = (Ok resp, st') →
  ∃ o paper,
    invoked st' = invoked st ++ [GenerateSummary o paper] ∧
    handle_mode o = summary_mode request ∧
    summary_mode request ∈ [lit "arxiv"; lit "local"].
Proof.
  intros st H. apply generate_summary_ok in H
    as (results & l & d & o & st1 & summary & allocated
        & _ & Hget & _ & _ & _ & ->).
  pose proof (reachable_registry_inv qs) as Hinv. change (registry_inv st) in Hinv.
  pose proof (get_orchestrator_extends (summary_mode request) st) as (Hinv1 & _ & _).
  rewrite Hget in Hinv1. simpl in Hinv1.
  destruct (Hinv1 Hinv) as (Hkeys & Hstored & _).
  destruct (get_orchestrator_ok _ _ _ _ Hget) as (? & [= <-] & Hentry & _).
  exists o, (VRef l). split; [done|]. split.
  - by apply (Hstored _ _ Hentry).
  - apply Hkeys. by rewrite Hentry.
Qed.

Lemma summary_uses_request_mode_witness :
  let st := run [Search demo_world demo_search] initial_state in
  ∃ o paper,
    invoked (generate_summary demo_world cross_mode_summary st).2
      = invoked st ++ [GenerateSummary o paper] ∧
    handle_mode o = lit "local" ∧
    lit "local" ∈ [lit "arxiv"; lit "local"].
Proof.
  apply (summary_uses_request_mode [Search demo_world demo_search] demo_world
           cross_mode_summary cross_mode_response).
  vm_compute. reflexivity.
Defined.

(** ** Which paper a summary request addresses *)

(** X11. When the session's [top_5_papers] is a list, a summary request is
    located exactly when its index is between 1 and 5 and the list has a
    paper at position [paper_index - 1]; that paper is the one addressed.
    A sixth or later paper of a longer list cannot be addressed. *)
Theorem locate_paper_by_position request st results d v xs paper :
  sessions st !! session_id request = Some results →
  shape_of (heap st) (Val results) = Return (SDict d) →
  d !! lit "top_5_papers" = Some v →
  shape_of (heap st) (Val v) = Return (SList xs) →
  locate_paper request st = (Ok (results, paper), st) ↔
  1 ≤ paper_index request ≤ 5 ∧
  xs !! Z.to_nat (paper_index request - 1) = Some paper.
Proof.
  intros Hsome Hd Hv Hxs.
  assert (py_get (heap st) (Val results) (lit "top_5_papers") (Fresh (OList []))
          = Return (Val v)) as Hget.
  { rewrite (py_get_of_dict _ _ _ _ _ Hd), Hv. done. }
  assert (py_len (heap st) (Val v) = Return (Z.of_nat (length xs))) as Hlen.
  { unfold py_len. by rewrite Hxs. }
  assert (∀ i, py_getitem_int (heap st) (Val v) i = seq_index xs i) as Hidx.
  { intros i. unfold py_getitem_int. by rewrite Hxs. }
  split.
  - intros H. apply locate_paper_ok in H
      as (_ & _ & Hrange & papers & count & Hp & Hc & Hle & Hi).
    rewrite Hget in Hp. injection Hp as <-.
    rewrite Hlen in Hc. injection Hc as <-.
    rewrite Hidx in Hi. unfold seq_index in Hi.
    replace (paper_index request - 1 <? 0) with false in Hi by lia.
    destruct ((paper_index request - 1 <? 0)
              || (Z.of_nat (length xs) <=? paper_index request - 1)); [discriminate|].
    destruct (xs !! Z.to_nat (paper_index request - 1)) as [x|]; [|discriminate].
    injection Hi as <-. done.
  - intros [Hrange Hpaper].
    pose proof (lookup_lt_Some _ _ _ Hpaper) as Hlt.
    apply (locate_paper_run request st results (Val v) (Z.of_nat (length xs)));
      try done; [lia|].
    rewrite Hidx. unfold seq_index.
    replace (paper_index request - 1 <? 0) with false by lia.
    replace ((paper_index request - 1 <? 0)
             || (Z.of_nat (length xs) <=? paper_index request - 1)) with false
      by (symmetry; apply orb_false_iff; lia).
    by rewrite Hpaper.
Qed.

Lemma locate_paper_by_position_witness :
  locate_paper (demo_summary 2) demo_state = (Ok (VRef 1, VRef 4), demo_state) ↔
  1 ≤ paper_index (demo_summary 2) ≤ 5 ∧
  [VRef 3; VRef 4] !! Z.to_nat (paper_index (demo_summary 2) - 1) = Some (VRef 4).
Proof.
  apply (locate_paper_by_position (demo_summary 2) demo_state (VRef 1)
           {[ lit "top_5_papers" := VRef 2; lit "query_timestamp" := VStr (lit "t0") ]}
           (VRef 2) [VRef 3; VRef 4] (VRef 4)).
  - vm_compute. reflexivity.
  - vm_compute. reflexivity.
  - vm_compute. reflexivity.
  - vm_compute. reflexivity.
Defined.

(** ** When two session identifiers coincide *)

Lemma zero_padded_inj width n m :
  (n < 10 ^ width)%nat → (m < 10 ^ width)%nat →
  zero_padded width n = zero_padded width m → n = m.
Proof.
  intros Hn Hm Heq. apply (f_equal decimal_value) in Heq.
  rewrite !zero_padded_value in Heq.
  by rewrite !Nat.mod_small in Heq.
Qed.

Lemma strftime_length dt : length (strftime dt) = 15%nat.
Proof.
  unfold strftime. by rewrite !length_app, !zero_padded_length.
Qed.

Lemma strftime_inj dt1 dt2 :
  fits_widths dt1 → fits_widths dt2 → strftime dt1 = strftime dt2 → dt1 = dt2.
Proof.
  intros (Hy1 & Hm1 & Hd1 & HH1 & HM1 & HS1) (Hy2 & Hm2 & Hd2 & HH2 & HM2 & HS2).
  unfold strftime. intros H.
  apply app_inj_1 in H as [Hy H]; [|by rewrite !zero_padded_length].
  apply app_inj_1 in H as [Hm H]; [|by rewrite !zero_padded_length].
  apply app_inj_1 in H as [Hd H]; [|by rewrite !zero_padded_length].
  apply app_inj_1 in H as [_ H]; [|done].
  apply app_inj_1 in H as [HH H]; [|by rewrite !zero_padded_length].
  apply app_inj_1 in H as [HM HS]; [|by rewrite !zero_padded_length].
  apply zero_padded_inj in Hy; [|done..].
  apply zero_padded_inj in Hm; [|done..].
  apply zero_padded_inj in Hd; [|done..].
  apply zero_padded_inj in HH; [|done..].
  apply zero_padded_inj in HM; [|done..].
  apply zero_padded_inj in HS; [|done..].
  destruct dt1, dt2. simpl in *. by subst.
Qed.

Lemma issued_id_inj mode1 dt1 mode2 dt2 :
  fits_widths dt1 → fits_widths dt2 →
  issued_id mode1 dt1 = issued_id mode2 dt2 →
  mode1 = mode2 ∧ dt1 = dt2.
Proof.
  intros H1 H2 Heq. unfold issued_id in Heq.
  assert (length mode1 = length mode2) as Hlen.
  { apply (f_equal length) in Heq.
    rewrite !length_app, !strftime_length in Heq. lia. }
  apply app_inj_1 in Heq as [-> Heq]; [|done].
  apply app_inj_1 in Heq as [_ Heq]; [|done].
  split; [done|]. by apply strftime_inj.
Qed.

(** X12. Two successful searches carry the same session identifier only if
    they have the same mode and happen in the same calendar second: for
    times whose fields fit their printed widths (every [datetime] does), the
    identifier of a response determines the mode of its request and all six
    fields of the time it was served at. *)
Theorem session_id_collides_only_in_same_second
    w1 request1 st1 resp1 st1' w2 request2 st2 resp2 st2' :
  search_papers w1 request1 st1 = (Ok resp1, st1') →
  search_papers w2 request2 st2 = (Ok resp2, st2') →
  fits_widths (now w1) → fits_widths (now w2) →
  resp_session_id resp1 = resp_session_id resp2 →
  search_mode request1 = search_mode request2 ∧ now w1 = now w2.
Proof.
  intros Hs1 Hs2 Hfit1 Hfit2 Heq.
  apply search_papers_ok_inv in Hs1 as (_ & _ & ? & ? & ? & ? & _ & _ & _ & _ & Hid1 & _).
  apply search_papers_ok_inv in Hs2 as (_ & _ & ? & ? & ? & ? & _ & _ & _ & _ & Hid2 & _).
  rewrite Hid1, Hid2 in Heq. by apply issued_id_inj.
Qed.

Lemma session_id_collides_only_in_same_second_witness :
  search_mode demo_search = search_mode demo_search ∧ now demo_world = now later_world.
Proof.
  apply (session_id_collides_only_in_same_second
           demo_world demo_search initial_state demo_response demo_state
           later_world demo_search demo_state later_response
           (search_papers later_world demo_search demo_state).2).
  - vm_compute. reflexivity.
  - vm_compute. reflexivity.
  - repeat split; apply Nat.ltb_lt; reflexivity.
  - repeat split; apply Nat.ltb_lt; reflexivity.
  - reflexivity.
Defined.

(** ** How many pipeline instances there can be *)

(** X13. However many requests are served, at most two pipeline instances
    are ever constructed, and each was constructed for arxiv or for local. *)
Theorem at_most_two_instances qs :
  let st := run qs initial_state in
  (length (instances st) ≤ 2)%nat ∧
  ∀ o, o ∈ instances st → handle_mode o ∈ [lit "arxiv"; lit "local"].
Proof.
  intros st.
  pose proof (reachable_registry_inv qs) as Hinv. change (registry_inv st) in Hinv.
  destruct Hinv as (Hkeys & _ & Hmade & Hnodup).
  assert (∀ o, o ∈ instances st → handle_mode o ∈ [lit "arxiv"; lit "local"]) as Hmodes.
  { intros o Ho. apply Hkeys. rewrite (Hmade _ Ho). eauto. }
  split; [|done].
  rewrite <- (length_fmap handle_mode).
  change 2%nat with (length [lit "arxiv"; lit "local"]).
  apply submseteq_length, NoDup_submseteq; [done|].
  intros m (o & -> & Ho)%list_elem_of_fmap. by apply Hmodes.
Qed.

(** * Invariants over request sequences *)

(** ** Frame reasoning from a precondition *)

Section PreservesFrom.
Context (I : state → Prop) (R : relation state) `{!PreOrder R}.
Context (Hstable : ∀ st st', I st → R st st' → I st').

Lemma preserves_from_weaken {A} (m : M A) : preserves R m → preserves_from I R m.
Proof. intros Hm st _. apply Hm. Qed.

Lemma preserves_from_bind {A B} (m : M A) (f : A → M B) :
  preserves_from I R m → (∀ a, preserves_from I R (f a)) →
  preserves_from I R (m ≫= f).
Proof.
  intros Hm Hf st HI. rewrite bind_run. specialize (Hm st HI).
  destruct (m st) as [[a|r] st1]; simpl in *; [|done].
  etrans; [exact Hm|]. apply Hf. by eapply Hstable.
Qed.

Lemma preserves_from_if {A} (b : bool) (m1 m2 : M A) :
  preserves_from I R m1 → preserves_from I R m2 →
  preserves_from I R (if b then m1 else m2).
Proof. by destruct b. Qed.
End PreservesFrom.

Lemma locate_paper_reads_only request st : (locate_paper request st).2 = st.
Proof.
  assert (preserves eq (locate_paper request)) as H; [|by rewrite <- (H st)].
  unfold locate_paper.
  repeat first
    [ apply preserves_sessions_contains, _
    | apply preserves_sessions_getitem, _
    | apply preserves_eval, _
    | apply preserves_ret, _
    | apply preserves_raise, _
    | apply preserves_if
    | apply preserves_bind; [apply _| |intros ?] ].
Qed.

Lemma get_orchestrator_keeps mode st :
  sessions (get_orchestrator mode st).2 = sessions st ∧
  heap (get_orchestrator mode st).2 = heap st ∧
  invoked (get_orchestrator mode st).2 = invoked st.
Proof.
  destruct (orchestrators st !! mode) as [[o|]|] eqn:E.
  - by rewrite (get_orchestrator_stored _ _ _ E).
  - by rewrite (get_orchestrator_first _ _ E).
  - by rewrite (get_orchestrator_unknown _ _ E).
Qed.

(** ** Sessions are never deleted, and their identifiers have one shape *)

Lemma sessions_grow_same st st' : sessions st' = sessions st → sessions_grow st st'.
Proof. intros H. unfold sessions_grow. rewrite H. split; auto. Qed.

#[global] Instance sessions_grow_preorder : PreOrder sessions_grow.
Proof.
  split.
  - intros st. by apply sessions_grow_same.
  - intros st1 st2 st3 [Hkeep12 Hnew12] [Hkeep23 Hnew23]. split; [auto|].
    intros sid H3. destruct (Hnew23 _ H3) as [H2|?]; [|by right]. by apply Hnew12.
Qed.

Lemma admits_stable sid st st' : admits sid st → sessions_grow st st' → admits sid st'.
Proof. intros [Hin|Hshape] [Hkeep _]; [left; by apply Hkeep | by right]. Qed.

Lemma get_orchestrator_grows mode : preserves sessions_grow (get_orchestrator mode).
Proof. intros st. apply sessions_grow_same, get_orchestrator_keeps. Qed.

Lemma setitem_grows x k v : preserves sessions_grow (setitem x k v).
Proof.
  intros st. unfold setitem.
  destruct (py_setitem_str (heap st) x k v); by apply sessions_grow_same.
Qed.

Lemma call_grows inv out : preserves sessions_grow (call inv out).
Proof. intros st. unfold call. destruct out; by apply sessions_grow_same. Qed.

Lemma call_run_pipeline_grows w orchestrator abstract :
  preserves sessions_grow (call_run_pipeline w orchestrator abstract).
Proof. destruct orchestrator; [apply call_grows | apply preserves_raise, _]. Qed.

Lemma call_generate_summary_grows w orchestrator paper :
  preserves sessions_grow (call_generate_summary w orchestrator paper).
Proof. destruct orchestrator; [apply call_grows | apply preserves_raise, _]. Qed.

Lemma sessions_setitem_grows sid results :
  preserves_from (admits sid) sessions_grow (sessions_setitem sid results).
Proof.
  intros st Hadmits. split; simpl.
  - intros sid' Hin. destruct (decide (sid = sid')) as [<-|Hne].
    + rewrite lookup_insert_eq. eauto.
    + by rewrite lookup_insert_ne.
  - intros sid'. destruct (decide (sid = sid')) as [<-|Hne].
    + intros _. exact Hadmits.
    + rewrite lookup_insert_ne by done. auto.
Qed.

Ltac grows_step sid :=
  first
    [ apply sessions_setitem_grows
    | apply preserves_from_weaken;
      first [ apply get_orchestrator_grows
            | apply setitem_grows
            | apply call_run_pipeline_grows
            | apply call_generate_summary_grows
            | apply preserves_eval, _
            | apply preserves_ret, _
            | apply preserves_raise, _ ]
    | apply preserves_from_if
    | apply (preserves_from_bind _ _ (admits_stable sid)); [|intros ?] ].

Lemma search_papers_grows w request : preserves sessions_grow (search_papers w request).
Proof.
  apply preserves_try_except. intros st.
  case_bool_decide as Hlen; [reflexivity|].
  case_bool_decide as Hmode; [|reflexivity].
  cbv iota beta delta [negb].
  set (sid := search_mode request ++ lit "_" ++ strftime (now w)).
  assert (preserves_from (admits sid) sessions_grow
    (orchestrator ← get_orchestrator (search_mode request);
     results ← call_run_pipeline w orchestrator (search_abstract request);
     nonempty ← eval (λ h, py_bool h (Val results));
     if negb nonempty
     then raise search_failed
     else
       sessions_setitem sid results;;
       timestamp ← eval (λ h, py_get h (Val results) (lit "query_timestamp") (Val VNone));
       keywords ← eval (λ h, py_get h (Val results) (lit "keywords") (Fresh (OList [])));
       metrics ← eval (λ h, py_get h (Val results) (lit "metrics") (Fresh (ODict ∅)));
       top ← eval (λ h, format_top_5 h results);
       analysis ← eval (λ h, comparative_analysis h results);
       mret {| resp_session_id := sid;
               resp_mode := search_mode request;
               resp_query_abstract := search_abstract request;
               resp_timestamp := timestamp;
               resp_keywords := keywords;
               resp_metrics := metrics;
               resp_top_5_papers := top;
               resp_comparative_analysis := analysis |})) as Hbody.
  { repeat grows_step sid. }
  apply Hbody. right. exists (search_mode request), (strftime (now w)).
  split; [done|]. split; [done|]. apply strftime_shaped.
Qed.

Lemma summarize_paper_grows w request results paper :
  preserves_from (admits (session_id request)) sessions_grow
                 (summarize_paper w request results paper).
Proof. unfold summarize_paper. repeat grows_step (session_id request). Qed.

Lemma generate_summary_grows w request :
  preserves sessions_grow (generate_summary w request).
Proof.
  apply preserves_try_except. intros st. rewrite bind_run.
  pose proof (locate_paper_reads_only request st) as Hst.
  destruct (locate_paper request st) as [[[results paper]|r] st0] eqn:E;
    simpl in Hst; subst st0; [|reflexivity].
  apply summarize_paper_grows. left.
  apply locate_paper_ok in E as (_ & Hsome & _). eauto.
Qed.

Lemma step_grows st q : sessions_grow st (step st q).
Proof.
  destruct q; simpl.
  - apply search_papers_grows.
  - apply generate_summary_grows.
  - unfold get_session. destruct (sessions st !! sid); reflexivity.
Qed.

Lemma run_grows qs st : sessions_grow st (run qs st).
Proof.
  revert st. induction qs as [|q qs IH]; intros st; simpl; [reflexivity|].
  etrans; [apply step_grows | apply IH].
Qed.

(** X14. No request ever deletes a session: an identifier that is in the
    session store stays in it through every later sequence of search,
    summary and session requests. *)
Theorem sessions_are_never_deleted qs st sid :
  is_Some (sessions st !! sid) → is_Some (sessions (run qs st) !! sid).
Proof. intros H. by apply (run_grows qs st). Qed.

Lemma sessions_are_never_deleted_witness :
  is_Some (sessions (run [Summarize demo_world (demo_summary 2);
                          Search later_world demo_search;
                          GetSession (lit "nowhere")] demo_state) !! demo_sid).
Proof.
  apply (sessions_are_never_deleted _ demo_state demo_sid).
  vm_compute. eauto.
Defined.

(** X15. Every identifier the session store ever holds consists of the mode
    arxiv or local, an underscore, and a timestamp of eight digits, an
    underscore and six digits. *)
Theorem stored_session_ids_are_shaped qs sid :
  is_Some (sessions (run qs initial_state) !! sid) → session_id_shaped sid.
Proof.
  intros H. destruct (run_grows qs initial_state) as [_ Hnew].
  destruct (Hnew _ H) as [Hinit|?]; [|done].
  simpl in Hinit. rewrite lookup_empty in Hinit. by destruct Hinit.
Qed.

Lemma stored_session_ids_are_shaped_witness : session_id_shaped demo_sid.
Proof.
  apply (stored_session_ids_are_shaped [Search demo_world demo_search] demo_sid).
  vm_compute. eauto.
Defined.

(** ** Only summaries are ever written into existing objects *)

Lemma unchanged_but_summary_refl o : unchanged_but_summary o o.
Proof. by destruct o. Qed.

Lemma unchanged_but_summary_trans o1 o2 o3 :
  unchanged_but_summary o1 o2 → unchanged_but_summary o2 o3 →
  unchanged_but_summary o1 o3.
Proof.
  destruct o1, o2, o3; simpl; try done.
  - by intros -> ->.
  - intros H12 H23 k Hk. by rewrite H23, H12.
Qed.

Lemma heap_evolves_same st st' : heap st' = heap st → heap_evolves st st'.
Proof.
  intros H l o Hl. rewrite H. eauto using unchanged_but_summary_refl.
Qed.

#[global] Instance heap_evolves_preorder : PreOrder heap_evolves.
Proof.
  split.
  - intros st. by apply heap_evolves_same.
  - intros st1 st2 st3 H12 H23 l o Hl.
    destruct (H12 _ _ Hl) as (o2 & Hl2 & Ho2).
    destruct (H23 _ _ Hl2) as (o3 & Hl3 & Ho3).
    eauto using unchanged_but_summary_trans.
Qed.

Lemma get_orchestrator_evolves mode : preserves heap_evolves (get_orchestrator mode).
Proof. intros st. apply heap_evolves_same, get_orchestrator_keeps. Qed.

Lemma sessions_setitem_evolves sid results :
  preserves heap_evolves (sessions_setitem sid results).
Proof. intros st. by apply heap_evolves_same. Qed.

Lemma setitem_summary_evolves x v : preserves heap_evolves (setitem x (lit "summary") v).
Proof.
  intros st. unfold setitem.
  destruct (py_setitem_str (heap st) x (lit "summary") v) as [h'|e] eqn:E;
    [|by apply heap_evolves_same].
  unfold py_setitem_str in E. destruct x as [ | | | | |l]; try discriminate.
  destruct (heap st !! l) as [[xs|d]|] eqn:Hl; try discriminate.
  injection E as <-. intros l' o Hl'. simpl.
  destruct (decide (l = l')) as [<-|Hne].
  - rewrite lookup_insert_eq. eexists. split; [done|].
    rewrite Hl in Hl'. injection Hl' as <-. simpl.
    intros k Hk. by rewrite lookup_insert_ne.
  - rewrite lookup_insert_ne by done. eauto using unchanged_but_summary_refl.
Qed.

Lemma call_evolves inv out : preserves heap_evolves (call inv out).
Proof.
  intros st. unfold call. destruct out as [v allocated|e];
    [|by apply heap_evolves_same].
  intros l o Hl. simpl. exists o. split; [|apply unchanged_but_summary_refl].
  by apply lookup_union_Some_l.
Qed.

Lemma call_run_pipeline_evolves w orchestrator abstract :
  preserves heap_evolves (call_run_pipeline w orchestrator abstract).
Proof. destruct orchestrator; [apply call_evolves | apply preserves_raise, _]. Qed.

Lemma call_generate_summary_evolves w orchestrator paper :
  preserves heap_evolves (call_generate_summary w orchestrator paper).
Proof. destruct orchestrator; [apply call_evolves | apply preserves_raise, _]. Qed.

Ltac evolves_step :=
  first
    [ apply get_orchestrator_evolves
    | apply sessions_setitem_evolves
    | apply setitem_summary_evolves
    | apply call_run_pipeline_evolves
    | apply call_generate_summary_evolves
    | apply preserves_sessions_contains, _
    | apply preserves_sessions_getitem, _
    | apply preserves_eval, _
    | apply preserves_ret, _
    | apply preserves_raise, _
    | apply preserves_try_except
    | apply preserves_if
    | apply preserves_bind; [apply _| |intros ?] ].

Lemma step_evolves st q : heap_evolves st (step st q).
Proof.
  destruct q as [w r|w r|sid]; simpl.
  - assert (preserves heap_evolves (search_papers w r)) as H; [|apply H].
    unfold search_papers. repeat evolves_step.
  - assert (preserves heap_evolves (generate_summary w r)) as H; [|apply H].
    unfold generate_summary, locate_paper, summarize_paper. repeat evolves_step.
  - unfold get_session. destruct (sessions st !! sid); reflexivity.
Qed.

Lemma run_evolves qs st : heap_evolves st (run qs st).
Proof.
  revert st. induction qs as [|q qs IH]; intros st; simpl; [reflexivity|].
  etrans; [apply step_evolves | apply IH].
Qed.

(** X16. Once an object exists, the handlers write nothing into it but a
    summary: through every sequence of requests a list object keeps its
    items, and a dict object keeps, under every key other than [summary],
    the value it had or the absence of one; no object disappears.  In
    particular the paper list, the ranks, titles and abstracts of a stored
    ResultSet never change. *)
Theorem only_summaries_are_written qs st l o :
  heap st !! l = Some o →
  ∃ o', heap (run qs st) !! l = Some o' ∧ unchanged_but_summary o o'.
Proof. apply run_evolves. Qed.

Lemma only_summaries_are_written_witness :
  ∃ o', heap (run [Summarize demo_world (demo_summary 2);
                   Search later_world demo_search] demo_state) !! 4%positive = Some o' ∧
        unchanged_but_summary demo_paper_2 o'.
Proof.
  apply (only_summaries_are_written _ demo_state 4%positive demo_paper_2).
  vm_compute. reflexivity.
Defined.

(** ** One collaborator call per request *)





















(** * Configuration *)

Example demo_get_config : get_config demo_environment = Return demo_config_response.
Proof. vm_compute. reflexivity. Qed.

Lemma data_get_return d k dflt x :
  data_get d k dflt = Return x → ∃ m, d = DDict m ∧ x = default dflt (m !! k).
Proof. destruct d; try discriminate. intros [= <-]. eauto. Qed.

Lemma data_get_setting m section key dflt x y :
  data_get (DDict m) section (DDict ∅) = Return x →
  data_get x key dflt = Return y →
  y = setting m section key dflt.
Proof.
  simpl. intros [= <-] (s & Hs & ->)%data_get_return. unfold setting.
  destruct (m !! section) as [v|]; simpl in Hs.
  - by rewrite Hs.
  - injection Hs as <-. by rewrite lookup_empty.
Qed.

(** X18. Every setting [GET /api/config] reports falls back to its default
    when [config.yaml] lacks the section or the key: whenever a response is
    produced, the configuration is a mapping, and the reported
    [arxiv_max_results], [top_k_papers] and local database path are the
    values under arxiv/max_results, reranking/top_k and
    local_database/folder_path, or 20, 5 and "data/local_database". *)
Theorem get_config_settings env resp :
  get_config env = Return resp →
  ∃ m, load_config env = Return (DDict m) ∧
    arxiv_max_results resp = setting m (lit "arxiv") (lit "max_results") (DInt 20) ∧
    top_k_papers resp = setting m (lit "reranking") (lit "top_k") (DInt 5) ∧
    local_database_path resp
      = setting m (lit "local_database") (lit "folder_path")
                (DStr (lit "data/local_database")).
Proof.
  unfold get_config. intros H.
  apply res_bind_return in H as (config & Hload & H).
  apply res_bind_return in H as (ld & Hld & H).
  pose proof Hld as (m & -> & _)%data_get_return.
  apply res_bind_return in H as (path & Hpath & H).
  apply res_bind_return in H as (ps & Hps & H).
  apply res_bind_return in H as (sample & Hsample & H).
  apply res_bind_return in H as (local_pdfs & _ & H).
  apply res_bind_return in H as (sample_pdfs & _ & H).
  apply res_bind_return in H as (ax & Hax & H).
  apply res_bind_return in H as (mr & Hmr & H).
  apply res_bind_return in H as (rr & Hrr & H).
  apply res_bind_return in H as (tk & Htk & H).
  injection H as <-. simpl.
  exists m. split; [done|].
  split; [by apply (data_get_setting _ _ _ _ _ _ Hax Hmr)|].
  split; [by apply (data_get_setting _ _ _ _ _ _ Hrr Htk)|].
  by apply (data_get_setting _ _ _ _ _ _ Hld Hpath).
Qed.

Lemma get_config_settings_witness :
  ∃ m, load_config demo_environment = Return (DDict m) ∧
    arxiv_max_results demo_config_response
      = setting m (lit "arxiv") (lit "max_results") (DInt 20) ∧
    top_k_papers demo_config_response
      = setting m (lit "reranking") (lit "top_k") (DInt 5) ∧
    local_database_path demo_config_response
      = setting m (lit "local_database") (lit "folder_path")
                (DStr (lit "data/local_database")).
Proof.
  apply (get_config_settings demo_environment demo_config_response).
  vm_compute. reflexivity.
Defined.

Lemma data_get_section m section key dflt :
  readable_section m section →
  data_get (DDict m) section (DDict ∅) ≫= (λ s, data_get s key dflt)
  = Return (setting m section key dflt).
Proof.
  unfold readable_section, setting. simpl.
  destruct (m !! section) as [[]|]; simpl; rewrite ?lookup_empty; done.
Qed.

(** With a configuration whose four sections are readable, [get_config]
    lists the two folders its settings name and answers. *)
Lemma get_config_of_mapping env m :
  load_config env = Return (DDict m) →
  readable_section m (lit "local_database") → readable_section m (lit "paths") →
  readable_section m (lit "arxiv") → readable_section m (lit "reranking") →
  get_config env =
    (local_pdfs ← list_pdfs env (setting m (lit "local_database") (lit "folder_path")
                                   (DStr (lit "data/local_database")));
     sample_pdfs ← list_pdfs env (setting m (lit "paths") (lit "sample_pdfs")
                                    (DStr (lit "data/sample_pdfs")));
     let pdf_count := (length local_pdfs `max` length sample_pdfs)%nat in
     mret {| arxiv_max_results := setting m (lit "arxiv") (lit "max_results") (DInt 20);
             top_k_papers := setting m (lit "reranking") (lit "top_k") (DInt 5);
             local_database_path :=
               setting m (lit "local_database") (lit "folder_path")
                       (DStr (lit "data/local_database"));
             local_database_pdf_count := pdf_count;
             local_database_ready := bool_decide (0 < pdf_count)%nat;
             modes_arxiv_name := lit "ArXiv Mode";
             modes_arxiv_description := lit "Search from ArXiv (online)";
             modes_arxiv_status := lit "online";
             modes_local_name := lit "Local Database";
             modes_local_description := lit "Search from local papers (offline)";
             modes_local_status :=
               if bool_decide (0 < pdf_count)%nat then lit "ready" else lit "no_pdfs" |}).
Proof.
  intros Hload Hld Hps Hax Hrr. unfold get_config. rewrite Hload.
  unfold readable_section, setting in *.
  cbn [mbind res_bind data_get].
  destruct (m !! lit "local_database") as [[]|]; try done;
    destruct (m !! lit "paths") as [[]|]; try done;
    destruct (m !! lit "arxiv") as [[]|]; try done;
    destruct (m !! lit "reranking") as [[]|]; try done;
    cbn [default mbind res_bind data_get]; rewrite ?lookup_empty; reflexivity.
Qed.

Lemma list_pdfs_apart_from_config exists_ listing parsed parsed' p :
  as_path p ≠ Return (PathStr (lit "config.yaml")) →
  list_pdfs (Environment (λ q, bool_decide (q = PathStr (lit "config.yaml")) || exists_ q)
                         listing parsed') p
  = list_pdfs (Environment exists_ listing parsed) p.
Proof.
  intros Hp. unfold list_pdfs. destruct (as_path p) as [path|]; [|done].
  cbn [mbind res_bind path_exists listdir].
  assert (path ≠ PathStr (lit "config.yaml")) as Hne by congruence.
  by rewrite (bool_decide_eq_false_2 _ Hne).
Qed.

(** X19. A missing [config.yaml] and a [config.yaml] that holds the empty
    mapping give the same answer to [GET /api/config], whatever the folders
    hold: the built-in defaults are exactly what the lookups fall back
    to. *)
Theorem missing_config_is_empty_config exists_ listing parsed :
  exists_ (PathStr (lit "config.yaml")) = false →
  get_config (Environment exists_ listing parsed)
  = get_config (Environment (λ p, bool_decide (p = PathStr (lit "config.yaml")) || exists_ p)
                            listing (Return (DDict ∅))).
Proof.
  intros Habsent.
  rewrite (get_config_of_mapping _ default_settings);
    [|unfold load_config; simpl; by rewrite Habsent|vm_compute; exact I..].
  rewrite (get_config_of_mapping _ ∅);
    [|unfold load_config; cbn [path_exists safe_load];
      by rewrite (bool_decide_eq_true_2 _ eq_refl)|vm_compute; exact I..].
  change (setting default_settings (lit "local_database") (lit "folder_path")
            (DStr (lit "data/local_database"))) with (DStr (lit "data/local_database")).
  change (setting default_settings (lit "paths") (lit "sample_pdfs")
            (DStr (lit "data/sample_pdfs"))) with (DStr (lit "data/sample_pdfs")).
  change (setting default_settings (lit "arxiv") (lit "max_results") (DInt 20))
    with (DInt 20).
  change (setting default_settings (lit "reranking") (lit "top_k") (DInt 5))
    with (DInt 5).
  unfold setting. rewrite !lookup_empty.
  by rewrite !(list_pdfs_apart_from_config exists_ listing parsed) by discriminate.
Qed.

Lemma missing_config_is_empty_config_witness :
  get_config demo_environment
  = get_config (Environment
                  (λ p, bool_decide (p = PathStr (lit "config.yaml"))
                        || path_exists demo_environment p)
                  (listdir demo_environment) (Return (DDict ∅))).
Proof.
  apply (missing_config_is_empty_config
           (path_exists demo_environment) (listdir demo_environment)
           (safe_load demo_environment)).
  vm_compute. reflexivity.
Defined.

(** X20. [GET /api/config] fails with an [AttributeError] when [config.yaml]
    does not hold a mapping -- an empty file, which [yaml.safe_load] reads
    as [None], is the common case -- or when its [local_database] entry is
    present but is not a mapping. *)
Theorem get_config_rejects_non_mappings env config :
  load_config env = Return config →
  (∀ m, config = DDict m →
        ∃ v, m !! lit "local_database" = Some v ∧ ∀ s, v ≠ DDict s) →
  get_config env = Throw AttributeError.
Proof.
  intros Hload Hbad. unfold get_config. rewrite Hload. simpl.
  destruct config as [ | | | | | |m]; try done.
  destruct (Hbad m eq_refl) as (v & Hv & Hnot). simpl. rewrite Hv. simpl.
  destruct v; try done. by destruct (Hnot entries).
Qed.

Lemma get_config_rejects_non_mappings_witness :
  get_config empty_file_environment = Throw AttributeError.
Proof.
  apply (get_config_rejects_non_mappings empty_file_environment DNone).
  - vm_compute. reflexivity.
  - intros m Hm. discriminate.
Defined.




(** * Startup *)

Example path_of_nested :
  path_of (lit "frontend/static/css") = [lit "css"; lit "static"; lit "frontend"].
Proof. reflexivity. Qed.

Example fresh_checkout_starts :
  (create_directories ∅).1 = None ∧ size fresh_tree = 20%nat ∧
  fresh_tree !! [lit "data"] = Some Directory ∧
  fresh_tree !! [lit ".gitkeep"; lit "js"; lit "static"; lit "frontend"] = Some File.
Proof. vm_compute. repeat split. Qed.

Example startup_fails_on_a_file : (create_directories logs_is_a_file).1 = Some FileExistsError.
Proof. vm_compute. reflexivity. Qed.

Lemma mkdir_cases p f :
  (mkdir p f = (None, <[p := Directory]> f) ∧ f !! p = None ∧ p ≠ [] ∧
   lookup_node f (tail p) = Some Directory) ∨
  (∃ e, mkdir p f = (Some e, f)).
Proof.
  unfold mkdir. destruct (lookup_node f p) as [n|] eqn:Hp; [right; eauto|].
  destruct (lookup_node f (tail p)) as [[|]|] eqn:Hparent; [left|right; eauto..].
  destruct p; [discriminate|]. done.
Qed.

Lemma touch_cases p f :
  (touch p f = (None, f) ∧ is_Some (lookup_node f p)) ∨
  (touch p f = (None, <[p := File]> f) ∧ f !! p = None ∧ p ≠ [] ∧
   lookup_node f (tail p) = Some Directory) ∨
  (∃ e, touch p f = (Some e, f)).
Proof.
  unfold touch. destruct (lookup_node f p) as [n|] eqn:Hp; [left; eauto|].
  destruct (lookup_node f (tail p)) as [[|]|] eqn:Hparent;
    [right; left|right; right; eauto..].
  destruct p; [discriminate|]. done.
Qed.

Lemma lookup_node_mono f f' p n :
  f ⊆ f' → lookup_node f p = Some n → lookup_node f' p = Some n.
Proof.
  intros Hsub. destruct p; [done|]. simpl. intros H. by eapply lookup_weaken.
Qed.

Lemma well_formed_insert f p n :
  well_formed f → f !! p = None → p ≠ [] → lookup_node f (tail p) = Some Directory →
  well_formed (<[p := n]> f).
Proof.
  intros Hwf Hnew Hne Hparent q m Hq.
  assert (f ⊆ <[p := n]> f) as Hsub by by apply insert_subseteq.
  destruct (decide (p = q)) as [<-|Hpq].
  - split; [done|]. by eapply lookup_node_mono.
  - rewrite lookup_insert_ne in Hq by done.
    destruct (Hwf _ _ Hq) as [Hq1 Hq2]. split; [done|]. by eapply lookup_node_mono.
Qed.

(** What [makedirs] does, whatever it answers: it only adds entries, it
    keeps the tree well formed, and when it succeeds the directory is
    there. *)
Lemma makedirs_spec p f :
  f ⊆ (makedirs p f).2 ∧
  (well_formed f → well_formed (makedirs p f).2) ∧
  ((makedirs p f).1 = None → lookup_node (makedirs p f).2 p = Some Directory).
Proof.
  revert f. induction p as [|name head IH]; intros f; [done|].
  cbn [makedirs].
  set (parent := if bool_decide (is_Some (lookup_node f head)) then (None, f)
                 else match makedirs head f with
                      | (Some FileExistsError, f') => (None, f')
                      | r => r
                      end).
  assert (f ⊆ parent.2 ∧ (well_formed f → well_formed parent.2)) as [Hsub1 Hwf1].
  { unfold parent. case_bool_decide; [done|].
    destruct (IH f) as (Hs & Hw & _).
    by destruct (makedirs head f) as [[[]|] f']. }
  destruct parent as [[e|] f1]; simpl in *; [done|].
  destruct (mkdir_cases (name :: head) f1) as [(-> & Hnew & _ & Hparent)|[e ->]].
  - simpl. split; [|split].
    + etrans; [exact Hsub1|]. by apply insert_subseteq.
    + intros Hwf. apply well_formed_insert; auto.
    + intros _. by rewrite lookup_insert_eq.
  - case_bool_decide as Hdir; simpl; [|done]. done.
Qed.

Lemma makedirs_existing p f :
  well_formed f → lookup_node f p = Some Directory → makedirs p f = (None, f).
Proof.
  intros Hwf Hp. destruct p as [|name head]; [done|]. cbn [makedirs].
  simpl in Hp. destruct (Hwf _ _ Hp) as [_ Hparent]. simpl in Hparent.
  rewrite bool_decide_eq_true_2 by eauto.
  unfold mkdir. simpl. rewrite Hp.
  by rewrite bool_decide_eq_true_2.
Qed.

Lemma create_directory_spec directory f :
  f ⊆ (create_directory directory f).2 ∧
  (well_formed f → well_formed (create_directory directory f).2) ∧
  ((create_directory directory f).1 = None →
   lookup_node (create_directory directory f).2 (path_of directory) = Some Directory ∧
   is_Some ((create_directory directory f).2 !! (lit ".gitkeep" :: path_of directory))).
Proof.
  unfold create_directory.
  destruct (makedirs_spec (path_of directory) f) as (Hsub & Hwf & Hdir).
  destruct (makedirs (path_of directory) f) as [[e|] f1]; simpl in *; [done|].
  specialize (Hdir eq_refl).
  case_bool_decide as Hkeep; simpl; [done|].
  destruct (touch_cases (lit ".gitkeep" :: path_of directory) f1)
    as [[-> Hthere]|[(-> & Hnew & _ & Hparent)|[e ->]]]; simpl.
  - done.
  - assert (f1 ⊆ <[lit ".gitkeep" :: path_of directory := File]> f1) as Hsub2
      by by apply insert_subseteq.
    split; [by etrans|]. split.
    + intros H. apply well_formed_insert; auto.
    + intros _. split; [by eapply lookup_node_mono|]. rewrite lookup_insert_eq. eauto.
  - done.
Qed.

Lemma create_directory_existing directory f :
  well_formed f →
  lookup_node f (path_of directory) = Some Directory →
  is_Some (f !! (lit ".gitkeep" :: path_of directory)) →
  create_directory directory f = (None, f).
Proof.
  intros Hwf Hdir Hkeep. unfold create_directory.
  rewrite (makedirs_existing _ _ Hwf Hdir). by rewrite bool_decide_eq_true_2.
Qed.

Lemma create_each_spec dirs f :
  f ⊆ (create_each dirs f).2 ∧
  (well_formed f → well_formed (create_each dirs f).2) ∧
  ((create_each dirs f).1 = None →
   Forall (λ d, lookup_node (create_each dirs f).2 (path_of d) = Some Directory ∧
                is_Some ((create_each dirs f).2 !! (lit ".gitkeep" :: path_of d))) dirs).
Proof.
  revert f. induction dirs as [|d dirs IH]; intros f; simpl.
  { split; [reflexivity|]. split; [done|]. intros _. constructor. }
  destruct (create_directory_spec d f) as (Hsub & Hwf & Hmade).
  destruct (create_directory d f) as [[e|] f1]; simpl in *; [done|].
  destruct (IH f1) as (Hsub' & Hwf' & Hrest).
  split; [by etrans|]. split; [auto|].
  intros Hok. destruct (Hmade eq_refl) as [Hdir Hkeep]. constructor; [|auto].
  split.
  - by eapply lookup_node_mono.
  - destruct Hkeep as [n Hn]. exists n. by eapply lookup_weaken.
Qed.

Lemma create_each_existing dirs f :
  well_formed f →
  Forall (λ d, lookup_node f (path_of d) = Some Directory ∧
               is_Some (f !! (lit ".gitkeep" :: path_of d))) dirs →
  create_each dirs f = (None, f).
Proof.
  intros Hwf Hall. induction Hall as [|d dirs [Hdir Hkeep] _ IH]; simpl; [done|].
  by rewrite (create_directory_existing _ _ Hwf Hdir Hkeep).
Qed.

(** X22. When [create_directories] completes, each of its nine directories
    exists as a directory and holds an entry named ".gitkeep". *)
Theorem create_directories_makes_them f f' :
  create_directories f = (None, f') →
  Forall (λ d, f' !! path_of d = Some Directory ∧
               is_Some (f' !! (lit ".gitkeep" :: path_of d))) directories.
Proof.
  intros H. destruct (create_each_spec directories f) as (_ & _ & Hall).
  unfold create_directories in H. rewrite H in Hall. simpl in Hall.
  eapply Forall_impl; [by apply Hall|].
  intros d [Hdir Hkeep]. split; [|done].
  destruct (path_of d) eqn:E; [|done].
  exfalso. unfold path_of in E. apply (f_equal (@rev _)) in E.
  rewrite rev_involutive in E. simpl in E. by destruct d; simpl in E; repeat case_match.
Qed.

Lemma create_directories_makes_them_witness :
  Forall (λ d, fresh_tree !! path_of d = Some Directory ∧
               is_Some (fresh_tree !! (lit ".gitkeep" :: path_of d))) directories.
Proof.
  apply (create_directories_makes_them ∅ fresh_tree).
  vm_compute. reflexivity.
Defined.

(** X23. [create_directories] only adds: whether it completes or stops at
    an error, every entry that was there is still there, as the same kind
    of entry.  It never deletes, and never turns a file into a directory or
    a directory into a file. *)
Theorem create_directories_only_adds f :
  f ⊆ (create_directories f).2.
Proof. apply create_each_spec. Qed.

(** X24. [create_directories] is idempotent on a well-formed tree: once it
    has completed, running it again (at the next startup) completes and
    changes nothing. *)
Theorem create_directories_idempotent f f' :
  well_formed f →
  create_directories f = (None, f') →
  create_directories f' = (None, f').
Proof.
  intros Hwf H. destruct (create_each_spec directories f) as (_ & Hwf' & Hall).
  unfold create_directories in *. rewrite H in Hwf', Hall.
  cbn [fst snd] in Hwf', Hall.
  apply create_each_existing; auto.
Qed.

Lemma create_directories_idempotent_witness :
  create_directories fresh_tree = (None, fresh_tree).
Proof.
  apply (create_directories_idempotent ∅ fresh_tree).
  - intros p n Hp. by rewrite lookup_empty in Hp.
  - vm_compute. reflexivity.
Defined.

(** X25. [create_directories] cannot complete when one of its directories
    exists as a regular file: it stops with an error and the file is left
    in place. *)
Theorem create_directories_blocked_by_a_file f d :
  d ∈ directories →
  f !! path_of d = Some File →
  ∃ e, (create_directories f).1 = Some e ∧
       (create_directories f).2 !! path_of d = Some File.
Proof.
  intros Hd Hfile.
  pose proof (create_directories_only_adds f) as Hsub.
  pose proof (lookup_weaken _ _ _ _ Hfile Hsub) as Hfile'.
  destruct (create_directories f) as [[e|] f'] eqn:E; simpl in *; [eauto|].
  exfalso. apply create_directories_makes_them in E.
  rewrite Forall_forall in E. destruct (E _ Hd) as [Hdir _]. congruence.
Qed.

Lemma create_directories_blocked_by_a_file_witness :
  ∃ e, (create_directories logs_is_a_file).1 = Some e ∧
       (create_directories logs_is_a_file).2 !! path_of (lit "logs") = Some File.
Proof.
  apply (create_directories_blocked_by_a_file logs_is_a_file (lit "logs")).
  - apply (bool_decide_unpack _). vm_compute. exact I.
  - vm_compute. reflexivity.
Defined.
